(** * SMA crossover trading bot: the strategy-execution core of [main.py]

    A shallow embedding of the four classes of [main.py]
    ([AlpacaAPI], [TradingSignals], [OrderExecution], [AlpacaTradingBot])
    and the properties of the strategy loop proved about it.

    Conventions of the embedding:
    - Python floats are IEEE binary64 numbers, Rocq's primitive [float];
      NaN is the float [nan], and every ordered comparison with it is false.
    - A pandas DataFrame is a row index with a finite map from column names
      to columns; a column is a list of floats.
    - pandas' rolling mean is an interface ([RollingMean]); the theorems
      hold for every implementation of it.
    - Exceptions are values of [exn]; a call either returns ([Ret]) or
      raises ([Raise]).
    - Everything observable (broker requests, log lines, sleeps) is an
      [event]; effectful code is a function from a state to the events it
      emitted, the new state and its outcome. *)

From Stdlib Require Import ZArith Floats List Bool Lia Sorted.
From stdpp Require Import base option list gmap strings.
From Equations Require Import Equations.
Import ListNotations.

Local Open Scope string_scope.
Local Open Scope list_scope.
Local Open Scope Z_scope.

(** ** Exceptions and outcomes *)

(** The exceptions the program can meet; all of them derive from Python's
    [Exception]. [APIError] is [tradeapi.rest.APIError]; [IOError] stands
    for any other exception raised by the broker client (transport,
    parsing). [KeyboardInterrupt], which [except Exception] does not catch,
    is not a member: it is modelled where [run]'s own code can receive it,
    as a reply to the clock request (see [clock_reply]). *)
Inductive exn : Type :=
| APIError
| IOError
| KeyError
| IndexError
| OverflowError.

(** [isinstance(e, Exception)] *)
Definition is_Exception (e : exn) : bool := true.

(** [isinstance(e, tradeapi.rest.APIError)] *)
Definition is_APIError (e : exn) : bool :=
  match e with
  | APIError => true
  | _ => false
  end.

Inductive outcome (A : Type) : Type :=
| Ret (a : A)
| Raise (e : exn).
Arguments Ret {A} a.
Arguments Raise {A} e.

(** ** Floats *)

(** [float(z)] for a Python int: the nearest binary64, ties to even. *)
Definition Z2float (z : Z) : float :=
  SF2Prim (binary_normalize prec emax z 0 false).

(** The implicit int-to-float conversion of [int * float]; Python raises
    [OverflowError] where the nearest binary64 would be infinite. *)
Definition float_of_int (z : Z) : outcome float :=
  let f := Z2float z in
  if PrimFloat.is_infinity f then Raise OverflowError else Ret f.

(** Python's [a > b] on floats. *)
Definition float_gt (a b : float) : bool := PrimFloat.ltb b a.

(** ** Observable events *)

Inductive level : Type := INFO | WARNING | ERROR.

Inductive side : Type := Buy | Sell.

(** The log lines of [main.py], one constructor per call of [logger]. *)
Inductive message : Type :=
| MsgNoData (symbol : string)
| MsgApiErrorFetching (symbol : string)
| MsgRetrying (symbol : string) (attempt retries : Z)
| MsgErrorFetching (symbol : string) (e : exn)
| MsgInsufficientData
| MsgSignalGenerated (s : side)
| MsgCurrentPrice (p : float)
| MsgShortSMA (v : float)
| MsgLongSMA (v : float)
| MsgEstimatedFee (qty : Z) (symbol : string) (fee : float)
| MsgOrderPlaced (s : side) (qty : Z) (symbol : string) (price : float)
| MsgApiErrorOrder
| MsgErrorOrder (e : exn)
| MsgStarting (symbols : list string)
| MsgMarketClosed (next_open : Z)
| MsgStopping
| MsgErrorMainLoop (e : exn)
| MsgFetchFailed (symbol : string)
| MsgBuySignal (symbol : string)
| MsgSellSignal (symbol : string)
| MsgNoSignals (symbol : string)
| MsgErrorProcessing (symbol : string) (e : exn).

(** An order as [submit_order] receives it. *)
Record order_request : Type := mkOrderRequest {
  or_symbol : string;
  or_qty : Z;
  or_side : side;
  or_type : string;
  or_time_in_force : string
}.

Inductive event : Type :=
| Log (lv : level) (m : message)
| GetClock
| GetCryptoBars (symbol : string) (hours : Z)
| GetLatestTrade (symbol : string)
| SubmitOrder (o : order_request)
| TimeSleepUniform (lo hi : Z)
| AsyncSleep (seconds : Z).

(** ** Effectful code: events, state, exceptions *)

Definition Eff (St A : Type) : Type := St -> list event * St * outcome A.

Definition ret {St A} (a : A) : Eff St A := fun s => ([], s, Ret a).

Definition bind {St A B} (m : Eff St A) (k : A -> Eff St B) : Eff St B :=
  fun s =>
    match m s with
    | (t, s', Ret a) =>
        match k a s' with
        | (t', s'', r) => (t ++ t', s'', r)
        end
    | (t, s', Raise e) => (t, s', Raise e)
    end.

Definition emit {St} (ev : event) : Eff St unit := fun s => ([ev], s, Ret tt).

Definition lift {St A} (o : outcome A) : Eff St A := fun s => ([], s, o).

(** [try: m except C1: h1 except C2: h2 ...]: the first clause whose class
    test accepts the exception runs; an exception raised by a handler is not
    offered to the other clauses. *)
Definition handler (St A : Type) : Type := (exn -> bool) * (exn -> Eff St A).

Fixpoint find_handler {St A} (hs : list (handler St A)) (e : exn)
    : option (exn -> Eff St A) :=
  match hs with
  | [] => None
  | (accepts, h) :: hs' => if accepts e then Some h else find_handler hs' e
  end.

Definition try_except {St A} (m : Eff St A) (hs : list (handler St A)) : Eff St A :=
  fun s =>
    match m s with
    | (t, s', Raise e) =>
        match find_handler hs e with
        | Some h =>
            match h e s' with
            | (t', s'', r) => (t ++ t', s'', r)
            end
        | None => (t, s', Raise e)
        end
    | r => r
    end.

Declare Scope eff_scope.
Delimit Scope eff_scope with eff.
Notation "x <- m ;; k" := (bind m (fun x => k))
  (at level 100, m at next level, right associativity) : eff_scope.
Notation "m ;;; k" := (bind m (fun _ => k))
  (at level 100, right associativity) : eff_scope.

Definition trace_of {St R} (r : list event * St * R) : list event := r.1.1.
Definition state_of {St R} (r : list event * St * R) : St := r.1.2.
Definition result_of {St A} (r : list event * St * outcome A) : outcome A := r.2.

(** ** DataFrames *)

Abbreviation column := (list float).

Record DataFrame : Type := mkDataFrame {
  df_index : list Z;
  df_columns : gmap string column
}.

(** [len(df)] *)
Definition df_len (df : DataFrame) : nat := length (df_index df).

(** [df.empty]: an axis of length 0. *)
Definition df_empty (df : DataFrame) : bool :=
  bool_decide (df_index df = []) || bool_decide (df_columns df = ∅).

(** [df[name]]; a missing column is a [KeyError]. *)
Definition getitem (name : string) : Eff DataFrame column :=
  fun df =>
    match df_columns df !! name with
    | Some c => ([], df, Ret c)
    | None => ([], df, Raise KeyError)
    end.

(** [df[name] = col]: the frame object is updated in place. *)
Definition setitem (name : string) (col : column) : Eff DataFrame unit :=
  fun df => ([], mkDataFrame (df_index df) (<[name := col]> (df_columns df)), Ret tt).

(** [series.iloc[i]] with Python's negative positions. *)
Definition iloc (i : Z) (col : column) : outcome float :=
  let n := Z.of_nat (length col) in
  let j := if i <? 0 then n + i else i in
  if (0 <=? j) && (j <? n) then
    match col !! Z.to_nat j with
    | Some v => Ret v
    | None => Raise IndexError
    end
  else Raise IndexError.

(** [df.tail(n)]: the last [n] rows; for negative [n], all rows but the
    first [-n]. *)
Definition tail_rows {A} (n : Z) (l : list A) : list A :=
  if 0 <=? n then drop (length l - Z.to_nat n)%nat l else drop (Z.to_nat (- n)) l.

Definition df_tail (n : Z) (df : DataFrame) : DataFrame :=
  mkDataFrame (tail_rows n (df_index df)) (tail_rows n <$> df_columns df).

(** [df.sort_index()]: rows in ascending order of the index, rows with equal
    keys in their original order. *)
Fixpoint insert_key (k : Z) (p : nat) (l : list (Z * nat)) : list (Z * nat) :=
  match l with
  | [] => [(k, p)]
  | (k', p') :: t => if k <=? k' then (k, p) :: l else (k', p') :: insert_key k p t
  end.

Definition sort_positions (idx : list Z) : list nat :=
  (foldr (fun kp acc => insert_key kp.1 kp.2 acc) []
         (zip idx (seq 0 (length idx)))).*2.

Definition reorder {A} (perm : list nat) (l : list A) : list A :=
  omap (fun p => l !! p) perm.

Definition df_sort_index (df : DataFrame) : DataFrame :=
  let perm := sort_positions (df_index df) in
  mkDataFrame (reorder perm (df_index df)) (reorder perm <$> df_columns df).

(** ** Rolling means *)

(** [series.rolling(window=w).mean()] is pandas' code, not the program's: it
    enters as an interface. What the program relies on, and what holds of
    pandas whatever its arithmetic: the result has one value per row, and a
    row where the trailing window is not yet full holds NaN (the default
    [min_periods] is the window). How the mean of a full window is summed
    and rounded is left to the implementation. *)
Class RollingMean : Type := {
  rolling_mean : nat -> list float -> list float;
  rolling_mean_rows :
    forall (w : nat) (col : list float), length (rolling_mean w col) = length col;
  rolling_mean_unfilled :
    forall (w : nat) (col : list float) (i : nat),
      (S i < w)%nat -> (i < length col)%nat -> rolling_mean w col !! i = Some nan
}.

(** An implementation of the interface, to run examples with: the values of
    the window added from the oldest to the newest and divided by the
    window size. It is not pandas' arithmetic (pandas keeps a compensated
    running sum), and no theorem depends on it: the theorems are stated for
    every implementation of the interface. *)
Definition plain_window_mean (w : nat) (xs : list float) : float :=
  PrimFloat.div (foldl PrimFloat.add PrimFloat.zero xs) (Z2float (Z.of_nat w)).

Fixpoint plain_rolling_from (w : nat) (col : column) (i : nat) (rest : column) : column :=
  match rest with
  | [] => []
  | _ :: rest' =>
      (if (S i <? w)%nat then nan
       else plain_window_mean w (take w (drop (S i - w)%nat col)))
      :: plain_rolling_from w col (S i) rest'
  end.

Definition plain_rolling_mean (w : nat) (col : column) : column :=
  plain_rolling_from w col 0%nat col.

Lemma plain_rolling_from_length (w : nat) (col : column) (i : nat) (rest : column) :
  length (plain_rolling_from w col i rest) = length rest.
Proof.
  revert i. induction rest as [|x rest IH]; intros i; simpl; [reflexivity|].
  rewrite IH. reflexivity.
Qed.

Lemma plain_rolling_from_lookup (w : nat) (col : column) (i : nat) (rest : column)
    (j : nat) :
  (j < length rest)%nat ->
  plain_rolling_from w col i rest !! j =
  Some (if (S (i + j) <? w)%nat then nan
        else plain_window_mean w (take w (drop (S (i + j) - w)%nat col))).
Proof.
  revert i j. induction rest as [|x rest IH]; intros i j Hj; simpl in Hj; [lia|].
  destruct j as [|j]; simpl.
  - rewrite Nat.add_0_r. reflexivity.
  - rewrite IH by lia. replace (S i + j)%nat with (i + S j)%nat by lia. reflexivity.
Qed.

Lemma plain_rolling_mean_unfilled (w : nat) (col : list float) (i : nat) :
  (S i < w)%nat -> (i < length col)%nat -> plain_rolling_mean w col !! i = Some nan.
Proof.
  intros Hw Hi. unfold plain_rolling_mean.
  rewrite plain_rolling_from_lookup by exact Hi. simpl.
  replace (S i <? w)%nat with true by (symmetry; apply Nat.ltb_lt; exact Hw).
  reflexivity.
Qed.

#[export] Instance plain_mean : RollingMean := {|
  rolling_mean := plain_rolling_mean;
  rolling_mean_rows := fun w col => plain_rolling_from_length w col 0%nat col;
  rolling_mean_unfilled := plain_rolling_mean_unfilled
|}.

(** ** TradingSignals *)

Record TradingSignals : Type := mkTradingSignals {
  short_window : nat;
  long_window : nat
}.

Local Open Scope eff_scope.

(** Lines 93-109 of [calculate], run on the frame object [data]. *)
Definition calculate_body `{RollingMean} (self : TradingSignals)
    : Eff DataFrame (bool * bool) :=
  close <- getitem "close" ;;
  setitem "SMA_short" (rolling_mean (short_window self) close) ;;;
  close <- getitem "close" ;;
  setitem "SMA_long" (rolling_mean (long_window self) close) ;;;
  sma_short <- getitem "SMA_short" ;;
  short_cur <- lift (iloc (-1) sma_short) ;;
  sma_long <- getitem "SMA_long" ;;
  long_cur <- lift (iloc (-1) sma_long) ;;
  let current_cross := float_gt short_cur long_cur in
  sma_short <- getitem "SMA_short" ;;
  short_prev <- lift (iloc (-2) sma_short) ;;
  sma_long <- getitem "SMA_long" ;;
  long_prev <- lift (iloc (-2) sma_long) ;;
  let prev_cross := float_gt short_prev long_prev in
  let buy_signal := negb prev_cross && current_cross in
  let sell_signal := prev_cross && negb current_cross in
  (if buy_signal || sell_signal then
     emit (Log INFO (MsgSignalGenerated (if buy_signal then Buy else Sell))) ;;;
     close <- getitem "close" ;;
     price <- lift (iloc (-1) close) ;;
     emit (Log INFO (MsgCurrentPrice price)) ;;;
     sma_short <- getitem "SMA_short" ;;
     v <- lift (iloc (-1) sma_short) ;;
     emit (Log INFO (MsgShortSMA v)) ;;;
     sma_long <- getitem "SMA_long" ;;
     v <- lift (iloc (-1) sma_long) ;;
     emit (Log INFO (MsgLongSMA v))
   else ret tt) ;;;
  ret (buy_signal, sell_signal).

(** [TradingSignals.calculate]. The argument is a reference to a frame
    object, or [None]; the second component of the result is that object
    after the call. *)
Definition calculate `{RollingMean} (self : TradingSignals) (data : option DataFrame)
    : list event * option DataFrame * outcome (bool * bool) :=
  match data with
  | Some df =>
      if (df_len df <? long_window self)%nat then
        ([Log WARNING MsgInsufficientData], data, Ret (false, false))
      else
        match calculate_body self df with
        | (t, df', r) => (t, Some df', r)
        end
  | None => ([Log WARNING MsgInsufficientData], data, Ret (false, false))
  end.

(** ** The broker capability *)

(** [api.get_clock()]: whole seconds since the epoch. *)
Record Clock : Type := mkClock {
  is_open : bool;
  next_open : Z;
  timestamp : Z
}.

(** What the clock request of [run] can end with: the call's own outcome,
    or a [KeyboardInterrupt] delivered while it is in progress. *)
Inductive clock_reply : Type :=
| Replied (o : outcome Clock)
| Interrupted.

Definition order : Type := Z.

(** The REST client [tradeapi.REST], seen from the program: each request
    gives an outcome and a new state of the outside world [W]. *)
Class Broker (W : Type) : Type := {
  get_clock : W -> clock_reply * W;
  get_crypto_bars : string -> Z -> W -> outcome DataFrame * W;
  get_latest_trade : string -> W -> outcome float * W;
  submit_order : order_request -> W -> outcome order * W
}.

(** A request: the event, then the broker's outcome. *)
Definition call {W A} (ev : event) (f : W -> outcome A * W) : Eff W A :=
  fun w => match f w with (o, w') => ([ev], w', o) end.

(** How one pass through the body of a [while] loop ends: with [return v],
    or at the end of the body with the loop variable at [attempt]. *)
Inductive loop_step (A : Type) : Type :=
| Return (v : A)
| Next (attempt : Z).
Arguments Return {A} v.
Arguments Next {A} attempt.

Section AlpacaAPI.
Context {W : Type} `{Broker W}.

Section GetHistoricalData.
Variables (symbol : string) (limit retries : Z) (delay : nat).

(** Lines 55-78: the body of the [while] loop of [get_historical_data],
    entered with the loop variable at [attempt]. The requested range is
    the [limit * 2] hours that end now. [delay] is a number of seconds,
    not negative, so that [time.sleep(random.uniform(1, delay))] sleeps and
    returns; the event records the bounds of the draw. *)
Definition fetch_attempt (attempt : Z) : Eff W (loop_step (option DataFrame)) :=
  try_except
    (bars <- call (GetCryptoBars symbol (limit * 2))
                  (get_crypto_bars symbol (limit * 2)) ;;
     if df_empty bars then
       emit (Log WARNING (MsgNoData symbol)) ;;;
       ret (Return None)
     else
       ret (Return (Some (df_sort_index (df_tail limit bars)))))
    [ (is_APIError, fun e =>
         emit (Log ERROR (MsgApiErrorFetching symbol)) ;;;
         let attempt := attempt + 1 in
         if attempt <? retries then
           emit (Log INFO (MsgRetrying symbol attempt retries)) ;;;
           emit (TimeSleepUniform 1 (Z.of_nat delay)) ;;;
           ret (Next attempt)
         else
           ret (Return None));
      (is_Exception, fun e =>
         emit (Log ERROR (MsgErrorFetching symbol e)) ;;;
         ret (Return None)) ].

(** Lines 53-54: [while attempt < retries]. Leaving the loop by its
    condition reaches the end of the function, which returns [None]. *)
Equations? fetch_loop (attempt : Z) (w : W)
    : list event * W * outcome (option DataFrame)
    by wf (Z.to_nat (retries - attempt)) lt :=
  fetch_loop attempt w with Z_lt_dec attempt retries := {
    | right _ := ([], w, Ret None);
    | left _ with Equations.Prop.Logic.inspect (fetch_attempt attempt w) := {
        | exist _ (t, w', Ret (Return v)) _ := (t, w', Ret v);
        | exist _ (t, w', Ret (Next attempt')) Heq :=
            match fetch_loop attempt' w' with
            | (t', w'', r) => (t ++ t', w'', r)
            end;
        | exist _ (t, w', Raise e) _ := (t, w', Raise e) } }.
Proof.
  (* a pass that reaches the end of the body has advanced [attempt] by one *)
  clear fetch_loop. revert Heq.
  unfold fetch_attempt, try_except, bind, call, emit, ret.
  destruct (get_crypto_bars symbol (limit * 2) w) as [[bars|e] w1]; simpl.
  - destruct (df_empty bars); simpl; intros [= ]; discriminate.
  - destruct e; simpl; try (intros [= ]; discriminate).
    destruct (attempt + 1 <? retries) eqn:E; simpl; intros [= ]; subst.
    lia.
Qed.

(** [AlpacaAPI.get_historical_data] (the time frame is fixed to hours). *)
Definition get_historical_data : Eff W (option DataFrame) := fetch_loop 0.

End GetHistoricalData.

(** ** OrderExecution *)

Record OrderExecution : Type := mkOrderExecution {
  fee_rate : float
}.

(** Line 125: [qty * current_price * (self.fee_rate / 100)], with [qty] a
    Python int. *)
Definition estimated_fee (self : OrderExecution) (qty : Z) (current_price : float)
    : outcome float :=
  match float_of_int qty with
  | Ret q =>
      Ret (PrimFloat.mul (PrimFloat.mul q current_price)
                         (PrimFloat.div (fee_rate self) (Z2float 100)))
  | Raise e => Raise e
  end.

(** [OrderExecution.place_order]: the order, or [None] after a logged
    failure. *)
Definition place_order (self : OrderExecution) (symbol : string) (qty : Z)
    (sd : side) (order_type : string) : Eff W (option order) :=
  try_except
    (current_price <- call (GetLatestTrade symbol) (get_latest_trade symbol) ;;
     fee <- lift (estimated_fee self qty current_price) ;;
     emit (Log INFO (MsgEstimatedFee qty symbol fee)) ;;;
     let request := mkOrderRequest symbol qty sd order_type "gtc" in
     o <- call (SubmitOrder request) (submit_order request) ;;
     emit (Log INFO (MsgOrderPlaced sd qty symbol current_price)) ;;;
     ret (Some o))
    [ (is_APIError, fun e => emit (Log ERROR MsgApiErrorOrder) ;;; ret None);
      (is_Exception, fun e => emit (Log ERROR (MsgErrorOrder e)) ;;; ret None) ].

(** ** AlpacaTradingBot *)

Context `{RollingMean}.

Record AlpacaTradingBot : Type := mkAlpacaTradingBot {
  symbols : list string;
  signals : TradingSignals;
  order_execution : OrderExecution
}.

(** [self.signals.calculate(data)] inside a task: the frame is the task's
    own and is dropped afterwards. *)
Definition calculate_signals (self : AlpacaTradingBot) (data : DataFrame)
    : Eff W (bool * bool) :=
  fun w =>
    match calculate (signals self) (Some data) with
    | (t, _, r) => (t, w, r)
    end.

(** [AlpacaTradingBot.process_symbol], with the defaults of
    [get_historical_data]: [limit=100, retries=3, delay=5]. *)
Definition process_symbol (self : AlpacaTradingBot) (symbol : string) : Eff W unit :=
  try_except
    (data <- get_historical_data symbol 100 3 5 ;;
     match data with
     | None =>
         emit (Log ERROR (MsgFetchFailed symbol)) ;;;
         emit (AsyncSleep 300) ;;;
         ret tt
     | Some df =>
         sig <- calculate_signals self df ;;
         let '(buy_signal, sell_signal) := sig in
         if buy_signal then
           emit (Log INFO (MsgBuySignal symbol)) ;;;
           place_order (order_execution self) symbol 1 Buy "market" ;;;
           ret tt
         else if sell_signal then
           emit (Log INFO (MsgSellSignal symbol)) ;;;
           place_order (order_execution self) symbol 1 Sell "market" ;;;
           ret tt
         else
           emit (Log INFO (MsgNoSignals symbol))
     end)
    [ (is_Exception, fun e => emit (Log ERROR (MsgErrorProcessing symbol e))) ].

(** [await asyncio.gather] on the tasks. The tasks share one thread and give up
    control only at an [await]; the only [await] of [process_symbol] is the
    300 s sleep that is its last action. So the requests and log lines of
    the tasks happen task after task, in the order of [symbols]; an
    [AsyncSleep] event of a task marks where its sleep starts, and the
    sleeps of several tasks overlap. *)
Fixpoint gather (tasks : list (Eff W unit)) : Eff W unit :=
  match tasks with
  | [] => ret tt
  | task :: tasks' => task ;;; gather tasks'
  end.

(** [timedelta.seconds]: the seconds field of the normalised difference,
    between 0 and 86399; whole days are in the [days] field. *)
Definition timedelta_seconds (d : Z) : Z := d mod 86400.

(** Lines 157-167: the [try] block of [run] after the clock request. *)
Definition run_cycle (self : AlpacaTradingBot) (check_interval : Z) (clock : Clock)
    : Eff W unit :=
  (if negb (is_open clock) then
     emit (Log INFO (MsgMarketClosed (next_open clock))) ;;;
     emit (AsyncSleep (Z.min check_interval
                             (timedelta_seconds (next_open clock - timestamp clock))))
   else ret tt) ;;;
  gather (map (process_symbol self) (symbols self)) ;;;
  emit (AsyncSleep check_interval).

(** How one pass through [while True] ends. *)
Inductive loop_status : Type :=
| Continue
| Break.

(** Lines 154-173: one pass through the body of [while True]. *)
Definition run_iteration (self : AlpacaTradingBot) (check_interval : Z) (w : W)
    : list event * W * loop_status :=
  match get_clock w with
  | (Interrupted, w') => ([GetClock; Log INFO MsgStopping], w', Break)
  | (Replied o, w') =>
      match (clock <- lift o ;; run_cycle self check_interval clock) w' with
      | (t, w'', Ret _) => (GetClock :: t, w'', Continue)
      | (t, w'', Raise e) =>
          (GetClock :: t ++ [Log ERROR (MsgErrorMainLoop e); AsyncSleep 300],
           w'', Continue)
      end
  end.

(** The first [n] passes of [while True], or fewer when the loop is left:
    the events, the state of the world, and whether the loop was left. *)
Fixpoint run_loop (self : AlpacaTradingBot) (check_interval : Z) (n : nat) (w : W)
    : list event * W * loop_status :=
  match n with
  | O => ([], w, Continue)
  | S n' =>
      match run_iteration self check_interval w with
      | (t, w', Continue) =>
          match run_loop self check_interval n' w' with
          | (t', w'', st) => (t ++ t', w'', st)
          end
      | (t, w', Break) => (t, w', Break)
      end
  end.

(** [AlpacaTradingBot.run], observed for [n] passes of its loop. *)
Definition run (self : AlpacaTradingBot) (check_interval : Z) (n : nat) (w : W)
    : list event * W * loop_status :=
  match run_loop self check_interval n w with
  | (t, w', st) => (Log INFO (MsgStarting (symbols self)) :: t, w', st)
  end.

End AlpacaAPI.

(** ** A scripted broker *)

(** A broker that answers from a script: each kind of request takes the next
    reply of its list; when the list is used up the request fails with a
    transport error. *)
Record Script : Type := mkScript {
  clock_replies : list clock_reply;
  bars_replies : list (outcome DataFrame);
  trade_replies : list (outcome float);
  order_replies : list (outcome order)
}.

#[export] Instance script_broker : Broker Script := {
  get_clock s :=
    match clock_replies s with
    | r :: rs => (r, mkScript rs (bars_replies s) (trade_replies s) (order_replies s))
    | [] => (Replied (Raise IOError), s)
    end;
  get_crypto_bars _ _ s :=
    match bars_replies s with
    | r :: rs => (r, mkScript (clock_replies s) rs (trade_replies s) (order_replies s))
    | [] => (Raise IOError, s)
    end;
  get_latest_trade _ s :=
    match trade_replies s with
    | r :: rs => (r, mkScript (clock_replies s) (bars_replies s) rs (order_replies s))
    | [] => (Raise IOError, s)
    end;
  submit_order _ s :=
    match order_replies s with
    | r :: rs => (r, mkScript (clock_replies s) (bars_replies s) (trade_replies s) rs)
    | [] => (Raise IOError, s)
    end
}.

(** A frame of bars with the given closing prices, indexed 0, 1, 2, ... *)
Definition bars_of (closes : list float) : DataFrame :=
  mkDataFrame (map Z.of_nat (seq 0 (length closes))) {[ "close" := closes ]}.

(** ** The crossover rule in the words of the specification *)

(** The moving average at index [i]: the value the rolling mean of window
    [w] holds at that row, NaN where the trailing window is not fully
    populated; there is none beyond the last row. *)
Definition trailing_mean `{RollingMean} (w : nat) (xs : list float) (i : nat)
    : option float :=
  rolling_mean w xs !! i.

(** [a] is strictly above [b], as floats: NaN is above nothing and nothing
    is above NaN; a missing value likewise. *)
Definition exceeds (a b : option float) : bool :=
  match a, b with
  | Some x, Some y => float_gt x y
  | _, _ => false
  end.

(** The comparison of the short and the long average at index [i]. *)
Definition cross_at `{RollingMean} (self : TradingSignals) (closes : list float)
    (i : nat) : bool :=
  exceeds (trailing_mean (short_window self) closes i)
          (trailing_mean (long_window self) closes i).

(** The log lines of a generated signal (lines 103-107). *)
Definition signal_log (buy_signal sell_signal : bool) (price sma_short sma_long : float)
    : list event :=
  if buy_signal || sell_signal then
    [Log INFO (MsgSignalGenerated (if buy_signal then Buy else Sell));
     Log INFO (MsgCurrentPrice price);
     Log INFO (MsgShortSMA sma_short);
     Log INFO (MsgLongSMA sma_long)]
  else [].

(** The frame after lines 93-94. *)
Definition with_averages `{RollingMean} (self : TradingSignals) (closes : list float)
    (df : DataFrame) : DataFrame :=
  mkDataFrame (df_index df)
    (<["SMA_long" := rolling_mean (long_window self) closes]>
       (<["SMA_short" := rolling_mean (short_window self) closes]> (df_columns df))).

(** ** The vocabulary of the statements about the fetch and the loop *)

(** The number of attempts in a trace: its bar requests. *)
Fixpoint attempts (t : list event) : nat :=
  match t with
  | [] => 0
  | GetCryptoBars _ _ :: t' => S (attempts t')
  | _ :: t' => attempts t'
  end.

(** The outcomes of [n] bar requests in a row, starting in the world [w]. *)
Fixpoint bars_outcomes {W : Type} `{Broker W} (symbol : string) (hours : Z)
    (n : nat) (w : W) : list (outcome DataFrame) :=
  match n with
  | O => []
  | S n' =>
      match get_crypto_bars symbol hours w with
      | (o, w') => o :: bars_outcomes symbol hours n' w'
      end
  end.

(** The events of a failed attempt that is retried: the request, the error
    line, the retry line with the new value of [attempt], the jittered
    sleep. *)
Definition retry_round (symbol : string) (limit retries : Z) (delay : nat)
    (attempt : Z) : list event :=
  [GetCryptoBars symbol (limit * 2);
   Log ERROR (MsgApiErrorFetching symbol);
   Log INFO (MsgRetrying symbol attempt retries);
   TimeSleepUniform 1 (Z.of_nat delay)].

(** [n] retried attempts in a row, the loop variable starting at [attempt]. *)
Fixpoint retry_rounds (symbol : string) (limit retries : Z) (delay : nat)
    (attempt : Z) (n : nat) : list event :=
  match n with
  | O => []
  | S n' =>
      retry_round symbol limit retries delay (attempt + 1)
      ++ retry_rounds symbol limit retries delay (attempt + 1) n'
  end.

(** The events and the value of an attempt that is not retried, by the
    outcome of its request (other than an API error). *)
Definition final_events (symbol : string) (limit : Z) (o : outcome DataFrame)
    : list event :=
  match o with
  | Ret bars =>
      if df_empty bars
      then [GetCryptoBars symbol (limit * 2); Log WARNING (MsgNoData symbol)]
      else [GetCryptoBars symbol (limit * 2)]
  | Raise e =>
      [GetCryptoBars symbol (limit * 2); Log ERROR (MsgErrorFetching symbol e)]
  end.

Definition final_value (limit : Z) (o : outcome DataFrame) : option DataFrame :=
  match o with
  | Ret bars => if df_empty bars then None else Some (df_sort_index (df_tail limit bars))
  | Raise _ => None
  end.

(** The way a pass, or the observed part of the loop, ended. *)
Definition status_of {St} (r : list event * St * loop_status) : loop_status := r.2.

(** ** Scenarios for the scripted broker *)

(** Two transient failures, then a frame of bars. *)
Definition two_failures_then_bars : Script :=
  mkScript [] [Raise APIError; Raise APIError; Ret (bars_of [1; 1; 5]%float)] [] [].

(** A transport error on the first attempt; the broker would answer the
    second. *)
Definition transport_error_first : Script :=
  mkScript [] [Raise IOError; Ret (bars_of [1; 1; 5]%float)] [] [].

(** One trade at 100.0, and the order is accepted. *)
Definition trade_at_100 : Script := mkScript [] [] [Ret 100%float] [Ret 42].

(** The clock request fails with an API error, then the market is open. *)
Definition clock_error_then_open : Script :=
  mkScript [Replied (Raise APIError); Replied (Ret (mkClock true 0 0))] [] [] [].

(** A bot for one symbol with windows 1 and 2. *)
Definition one_symbol_bot : AlpacaTradingBot :=
  mkAlpacaTradingBot ["BTC/USD"] (mkTradingSignals 1 2) (mkOrderExecution 0.25%float).

(** The market is closed and opens 2000 seconds after the clock's
    timestamp; bars whose last close crosses upward are on offer. *)
Definition closed_for_2000s : Script :=
  mkScript [Replied (Ret (mkClock false 2000 0))]
           [Ret (bars_of [1; 1; 5]%float)] [Ret 100%float] [Ret 42].

(** The market is closed and opens one day and ten seconds after the
    clock's timestamp. *)
Definition closed_for_a_day_and_10s : Script :=
  mkScript [Replied (Ret (mkClock false 86410 0))] [] [] [].

(** The orders submitted in a trace, oldest first. *)
Fixpoint submitted (t : list event) : list order_request :=
  match t with
  | [] => []
  | SubmitOrder o :: t' => o :: submitted t'
  | _ :: t' => submitted t'
  end.

(** The symbols of the bar requests of a trace, oldest first. *)
Fixpoint bars_requested (t : list event) : list string :=
  match t with
  | [] => []
  | GetCryptoBars symbol _ :: t' => symbol :: bars_requested t'
  | _ :: t' => bars_requested t'
  end.

(** ** Start-up: credentials, connection check, entry point *)

(** [api.get_account()]: the two fields the program reads, as the client
    delivers them. *)
Record Account : Type := mkAccount {
  acc_status : string;
  buying_power : string
}.

(** The log lines of the start-up code (lines 23-24, 41-48, 205). *)
Inductive startup_message : Type :=
| MsgApiKey (api_key : option string)
| MsgApiSecret (api_secret : option string)
| MsgConnected (status : string)
| MsgBuyingPower (p : float)
| MsgApiErrorAccount
| MsgConnectFailed (e : exn)
| MsgFatal (e : exn).

(** What the start-up code adds to the events of the strategy loop. *)
Inductive startup_event : Type :=
| StartupLog (lv : level) (m : startup_message)
| GetAccount
| Core (ev : event).

(** [not value] for the result of [os.getenv]: [None] and the empty string
    are false. *)
Definition is_set (value : option string) : bool :=
  match value with
  | Some s => negb (String.eqb s "")
  | None => false
  end.

(** How the script ends, or where it stands after the observed passes of
    the loop: the [ValueError] of line 27, which nothing catches; the fatal
    error line of line 205; the loop left on [KeyboardInterrupt]; or still
    in the loop. *)
Inductive program_end : Type :=
| UncaughtValueError
| FatalLogged (e : exn)
| LoopLeft
| InLoop.

Section Startup.
Context {W : Type} `{Broker W} `{RollingMean}.

(** [self.api.get_account()] and Python's [float(...)] on the buying power,
    which returns a float or raises. *)
Variable get_account : W -> outcome Account * W.
Variable parse_float : string -> outcome float.

(** The error line of the handler that catches [e] in
    [validate_connection]. *)
Definition connection_error_line (e : exn) : startup_event :=
  StartupLog ERROR (if is_APIError e then MsgApiErrorAccount else MsgConnectFailed e).

(** [AlpacaAPI.validate_connection] (lines 37-49): both handlers log and
    raise the exception again. *)
Definition validate_connection (w : W) : list startup_event * W * outcome Account :=
  match get_account w with
  | (Ret account, w') =>
      match parse_float (buying_power account) with
      | Ret p =>
          ([GetAccount;
            StartupLog INFO (MsgConnected (acc_status account));
            StartupLog INFO (MsgBuyingPower p)], w', Ret account)
      | Raise e =>
          ([GetAccount;
            StartupLog INFO (MsgConnected (acc_status account));
            connection_error_line e], w', Raise e)
      end
  | (Raise e, w') => ([GetAccount; connection_error_line e], w', Raise e)
  end.

(** [AlpacaTradingBot.__init__] (lines 141-147): the three components, then
    the connection check, whose exception leaves the constructor. *)
Definition init_bot (symbols : list string) (short_window long_window : nat)
    (fee_rate : float) (w : W) : list startup_event * W * outcome AlpacaTradingBot :=
  let self := mkAlpacaTradingBot symbols
                (mkTradingSignals short_window long_window)
                (mkOrderExecution fee_rate) in
  match validate_connection w with
  | (t, w', Ret _) => (t, w', Ret self)
  | (t, w', Raise e) => (t, w', Raise e)
  end.

(** The script (lines 19-27 and 199-205), its loop observed for [n] passes:
    the credentials are logged, then checked; the bot is built for the two
    symbols with the default windows and fee rate and run with the default
    [check_interval]; an exception of the [try] block is logged as fatal. *)
Definition main (api_key api_secret : option string) (n : nat) (w : W)
    : list startup_event * W * program_end :=
  let credentials := [StartupLog INFO (MsgApiKey api_key);
                      StartupLog INFO (MsgApiSecret api_secret)] in
  if negb (is_set api_key) || negb (is_set api_secret) then
    (credentials, w, UncaughtValueError)
  else
    match init_bot ["BTC/USD"; "ETH/USD"] 20 50 0.25%float w with
    | (t, w', Raise e) =>
        (credentials ++ t ++ [StartupLog ERROR (MsgFatal e)], w', FatalLogged e)
    | (t, w', Ret bot) =>
        match run bot 900 n w' with
        | (t', w'', Break) => (credentials ++ t ++ map Core t', w'', LoopLeft)
        | (t', w'', Continue) => (credentials ++ t ++ map Core t', w'', InLoop)
        end
    end.

End Startup.

(** The error line of the handler that catches [e] in [place_order]. *)
Definition order_error_line (e : exn) : event :=
  Log ERROR (if is_APIError e then MsgApiErrorOrder else MsgErrorOrder e).

Definition key_le (a b : Z * nat) : Prop := a.1 <= b.1.

(** The pairs (key, position) of an index, sorted by key. *)
Definition sorted_pairs (idx : list Z) : list (Z * nat) :=
  foldr (fun kp acc => insert_key kp.1 kp.2 acc) [] (zip idx (seq 0 (length idx))).

(** The orders a task may submit for its symbol: none, or one order for one
    unit at market, good till cancelled, on the given side. *)
Definition task_orders (symbol : string) (sd : option side) : list order_request :=
  match sd with
  | Some d => [mkOrderRequest symbol 1 d "market" "gtc"]
  | None => []
  end.

(** The events of the task after the fetch, by what the fetch returned and
    what the calculation gave. *)
Definition after_fetch {W : Type} `{Broker W} `{RollingMean} (self : AlpacaTradingBot)
    (symbol : string) (data : option DataFrame) (w : W) : list event * W :=
  match data with
  | None => ([Log ERROR (MsgFetchFailed symbol); AsyncSleep 300], w)
  | Some df =>
      let calc := calculate (signals self) (Some df) in
      match result_of calc with
      | Raise e => (trace_of calc ++ [Log ERROR (MsgErrorProcessing symbol e)], w)
      | Ret (true, _) =>
          let placed := place_order (order_execution self) symbol 1 Buy "market" w in
          (trace_of calc ++ Log INFO (MsgBuySignal symbol) :: trace_of placed,
           state_of placed)
      | Ret (false, true) =>
          let placed := place_order (order_execution self) symbol 1 Sell "market" w in
          (trace_of calc ++ Log INFO (MsgSellSignal symbol) :: trace_of placed,
           state_of placed)
      | Ret (false, false) =>
          (trace_of calc ++ [Log INFO (MsgNoSignals symbol)], w)
      end
  end.

(** ** More scenarios for the scripted broker *)

(** A frame without rows on the first attempt; bars would follow. *)
Definition empty_then_bars : Script :=
  mkScript [] [Ret (bars_of []); Ret (bars_of [1; 1; 5]%float)] [] [].

(** Bars that arrive out of order, more than the limit of two. *)
Definition unordered_bars : DataFrame :=
  mkDataFrame [5; 3; 1; 2] {[ "close" := [1; 2; 3; 4]%float ]}.

(** The broker refuses every request. *)
Definition broker_down : Script := mkScript [] [] [Raise APIError] [].

(** The trade is read, the submission is rejected. *)
Definition order_rejected : Script := mkScript [] [] [Ret 100%float] [Raise APIError].

(** Bars whose last close crosses upward; the trade is read and the order
    accepted. *)
Definition upward_cross : Script :=
  mkScript [] [Ret (bars_of [1; 1; 5]%float)] [Ret 100%float] [Ret 42].

(** The market is open; the broker has no bars to give. *)
Definition open_no_bars : Script :=
  mkScript [Replied (Ret (mkClock true 0 0))] [] [] [].

(** The interrupt arrives at the first clock request. *)
Definition interrupted_at_once : Script :=
  mkScript [Interrupted; Replied (Ret (mkClock true 0 0))] [] [] [].

(** Two symbols; the first gets bars with an upward cross, the second a
    transport error. *)
Definition two_symbol_cycle : Script :=
  mkScript [Replied (Ret (mkClock true 0 0))]
           [Ret (bars_of [1; 1; 5]%float); Raise IOError] [Ret 100%float] [Ret 42].

(** A bot for the two symbols of the script, with windows 1 and 2. *)
Definition two_symbol_bot : AlpacaTradingBot :=
  mkAlpacaTradingBot ["BTC/USD"; "ETH/USD"] (mkTradingSignals 1 2)
    (mkOrderExecution 0.25%float).

(** * Properties *)

(** ** Floats: comparisons with NaN *)

Lemma float_gt_nan_r (x : float) : float_gt x nan = false.
Proof.
  unfold float_gt. rewrite ltb_spec.
  change (Prim2SF nan) with S754_nan. reflexivity.
Qed.

Lemma float_gt_nan_l (x : float) : float_gt nan x = false.
Proof.
  unfold float_gt. rewrite ltb_spec.
  change (Prim2SF nan) with S754_nan.
  unfold SFltb. destruct (Prim2SF x); reflexivity.
Qed.

(** ** The effect combinators, run on a state *)

Section EffLemmas.
Context {St A B : Type}.

Lemma bind_ret (a : A) (k : A -> Eff St B) (s : St) :
  bind (ret a) k s = k a s.
Proof. unfold bind, ret. destruct (k a s) as [[t s'] r]. reflexivity. Qed.

Lemma bind_lift_Ret (a : A) (k : A -> Eff St B) (s : St) :
  bind (lift (Ret a)) k s = k a s.
Proof. unfold bind, lift. destruct (k a s) as [[t s'] r]. reflexivity. Qed.

Lemma bind_lift_Raise (e : exn) (k : A -> Eff St B) (s : St) :
  bind (lift (Raise e)) k s = ([], s, Raise e).
Proof. reflexivity. Qed.

Lemma bind_emit (ev : event) (k : unit -> Eff St B) (s : St) :
  bind (emit ev) k s =
  (ev :: trace_of (k tt s), state_of (k tt s), result_of (k tt s)).
Proof. unfold bind, emit. destruct (k tt s) as [[t s'] r]. reflexivity. Qed.

End EffLemmas.

Lemma bind_getitem {B} (name : string) (c : column) (k : column -> Eff DataFrame B)
    (df : DataFrame) :
  df_columns df !! name = Some c ->
  bind (getitem name) k df = k c df.
Proof.
  intros Hc. unfold bind, getitem. rewrite Hc.
  destruct (k c df) as [[t s'] r]. reflexivity.
Qed.

Lemma bind_getitem_None {B} (name : string) (k : column -> Eff DataFrame B)
    (df : DataFrame) :
  df_columns df !! name = None ->
  bind (getitem name) k df = ([], df, Raise KeyError).
Proof. intros Hc. unfold bind, getitem. rewrite Hc. reflexivity. Qed.

Lemma bind_setitem {B} (name : string) (c : column) (k : unit -> Eff DataFrame B)
    (df : DataFrame) :
  bind (setitem name c) k df =
  k tt (mkDataFrame (df_index df) (<[name := c]> (df_columns df))).
Proof.
  unfold bind, setitem.
  destruct (k tt _) as [[t s'] r]. reflexivity.
Qed.

(** ** Positions from the end of a column *)

Lemma iloc_last (col : list float) (k : nat) :
  (1 <= k <= length col)%nat ->
  exists v, col !! (length col - k)%nat = Some v /\ iloc (- Z.of_nat k) col = Ret v.
Proof.
  intros Hk.
  destruct (lookup_lt_is_Some_2 col (length col - k)%nat) as [v Hv]; [lia|].
  exists v. split; [exact Hv|].
  unfold iloc.
  replace (- Z.of_nat k <? 0) with true by (symmetry; apply Z.ltb_lt; lia).
  replace (0 <=? Z.of_nat (length col) + - Z.of_nat k) with true
    by (symmetry; apply Z.leb_le; lia).
  replace (Z.of_nat (length col) + - Z.of_nat k <? Z.of_nat (length col)) with true
    by (symmetry; apply Z.ltb_lt; lia).
  simpl.
  replace (Z.to_nat (Z.of_nat (length col) + - Z.of_nat k)) with (length col - k)%nat by lia.
  rewrite Hv. reflexivity.
Qed.

Lemma iloc_out_of_range (col : list float) (k : nat) :
  (length col < k)%nat -> iloc (- Z.of_nat k) col = Raise IndexError.
Proof.
  intros Hk. unfold iloc.
  replace (- Z.of_nat k <? 0) with true by (symmetry; apply Z.ltb_lt; lia).
  replace (0 <=? Z.of_nat (length col) + - Z.of_nat k) with false
    by (symmetry; apply Z.leb_gt; lia).
  reflexivity.
Qed.

(** ** Rolling means, row by row *)

Lemma rolling_mean_length `{RollingMean} (w : nat) (col : list float) :
  length (rolling_mean w col) = length col.
Proof. apply rolling_mean_rows. Qed.

Lemma iloc_minus_1 (col : list float) :
  (1 <= length col)%nat ->
  exists v, col !! (length col - 1)%nat = Some v /\ iloc (-1) col = Ret v.
Proof. intros Hn. apply (iloc_last col 1). lia. Qed.

Lemma iloc_minus_2 (col : list float) :
  (2 <= length col)%nat ->
  exists v, col !! (length col - 2)%nat = Some v /\ iloc (-2) col = Ret v.
Proof. intros Hn. apply (iloc_last col 2). lia. Qed.

Lemma iloc_minus_1_empty (col : list float) :
  (length col < 1)%nat -> iloc (-1) col = Raise IndexError.
Proof. apply (iloc_out_of_range col 1). Qed.

Lemma iloc_minus_2_short (col : list float) :
  (length col < 2)%nat -> iloc (-2) col = Raise IndexError.
Proof. apply (iloc_out_of_range col 2). Qed.

(** The comparison the code makes on the entries of the two rolling
    columns at a row is the comparison of the two moving averages there. *)
Lemma rolling_cross `{RollingMean} (self : TradingSignals) (closes : list float)
    (i : nat) :
  (i < length closes)%nat ->
  exists s l,
    rolling_mean (short_window self) closes !! i = Some s /\
    rolling_mean (long_window self) closes !! i = Some l /\
    float_gt s l = cross_at self closes i.
Proof.
  intros Hi.
  destruct (lookup_lt_is_Some_2 (rolling_mean (short_window self) closes) i)
    as [s Hs]; [rewrite rolling_mean_length; exact Hi|].
  destruct (lookup_lt_is_Some_2 (rolling_mean (long_window self) closes) i)
    as [l Hl]; [rewrite rolling_mean_length; exact Hi|].
  exists s, l. split; [exact Hs|]. split; [exact Hl|].
  unfold cross_at, trailing_mean. rewrite Hs, Hl. reflexivity.
Qed.

(** ** Running [calculate] *)

Section CalculateBody.
Context `{RollingMean}.
Variables (self : TradingSignals) (df : DataFrame) (closes : list float).
Hypothesis Hclose : df_columns df !! "close" = Some closes.

Let df1 : DataFrame :=
  mkDataFrame (df_index df)
    (<["SMA_short" := rolling_mean (short_window self) closes]> (df_columns df)).

Lemma close_after_short : df_columns df1 !! "close" = Some closes.
Proof. simpl. rewrite lookup_insert_ne by discriminate. exact Hclose. Qed.

Lemma close_after_long :
  df_columns (with_averages self closes df) !! "close" = Some closes.
Proof. simpl. rewrite !lookup_insert_ne by discriminate. exact Hclose. Qed.

Lemma short_after_long :
  df_columns (with_averages self closes df) !! "SMA_short"
  = Some (rolling_mean (short_window self) closes).
Proof.
  simpl. rewrite lookup_insert_ne by discriminate. apply lookup_insert_eq.
Qed.

Lemma long_after_long :
  df_columns (with_averages self closes df) !! "SMA_long"
  = Some (rolling_mean (long_window self) closes).
Proof. simpl. apply lookup_insert_eq. Qed.


Lemma calculate_body_no_rows :
  (length closes < 1)%nat ->
  calculate_body self df = ([], with_averages self closes df, Raise IndexError).
Proof.
  intros Hn. unfold calculate_body.
  rewrite (bind_getitem _ _ _ _ Hclose). cbv beta.
  rewrite bind_setitem. cbv beta.
  rewrite (bind_getitem _ _ _ _ close_after_short). cbv beta.
  rewrite bind_setitem. cbv beta.
  fold (with_averages self closes df).
  rewrite (bind_getitem _ _ _ _ short_after_long). cbv beta.
  rewrite iloc_minus_1_empty by (rewrite rolling_mean_length; lia).
  apply bind_lift_Raise.
Qed.

Lemma calculate_body_one_row :
  length closes = 1%nat ->
  calculate_body self df = ([], with_averages self closes df, Raise IndexError).
Proof.
  intros Hn. unfold calculate_body.
  rewrite (bind_getitem _ _ _ _ Hclose). cbv beta.
  rewrite bind_setitem. cbv beta.
  rewrite (bind_getitem _ _ _ _ close_after_short). cbv beta.
  rewrite bind_setitem. cbv beta.
  fold (with_averages self closes df).
  destruct (iloc_minus_1 (rolling_mean (short_window self) closes)) as (sc & _ & Hsc);
    [rewrite rolling_mean_length; lia|].
  destruct (iloc_minus_1 (rolling_mean (long_window self) closes)) as (lc & _ & Hlc);
    [rewrite rolling_mean_length; lia|].
  rewrite (bind_getitem _ _ _ _ short_after_long). cbv beta.
  rewrite Hsc, bind_lift_Ret.
  rewrite (bind_getitem _ _ _ _ long_after_long). cbv beta.
  rewrite Hlc, bind_lift_Ret.
  rewrite (bind_getitem _ _ _ _ short_after_long). cbv beta.
  rewrite iloc_minus_2_short by (rewrite rolling_mean_length; lia).
  apply bind_lift_Raise.
Qed.

(** With two rows or more, lines 93-109 end with the two flags, computed
    from the comparisons of the moving averages at the last two rows. *)
Lemma calculate_body_two_rows :
  (2 <= length closes)%nat ->
  let n := length closes in
  let current_cross := cross_at self closes (n - 1) in
  let prev_cross := cross_at self closes (n - 2) in
  let buy_signal := negb prev_cross && current_cross in
  let sell_signal := prev_cross && negb current_cross in
  exists price sma_short sma_long,
    calculate_body self df =
    (signal_log buy_signal sell_signal price sma_short sma_long,
     with_averages self closes df, Ret (buy_signal, sell_signal)).
Proof.
  intros Hn n current_cross prev_cross buy_signal sell_signal.
  destruct (rolling_cross self closes (n - 1)) as (sc & lc & Hsc & Hlc & Hcur);
    [unfold n; lia|].
  destruct (rolling_cross self closes (n - 2)) as (sp & lp & Hsp & Hlp & Hprev);
    [unfold n; lia|].
  destruct (iloc_minus_1 (rolling_mean (short_window self) closes)) as (v1 & L1 & I1);
    [rewrite rolling_mean_length; lia|].
  destruct (iloc_minus_1 (rolling_mean (long_window self) closes)) as (v2 & L2 & I2);
    [rewrite rolling_mean_length; lia|].
  destruct (iloc_minus_2 (rolling_mean (short_window self) closes)) as (v3 & L3 & I3);
    [rewrite rolling_mean_length; lia|].
  destruct (iloc_minus_2 (rolling_mean (long_window self) closes)) as (v4 & L4 & I4);
    [rewrite rolling_mean_length; lia|].
  destruct (iloc_minus_1 closes) as (price & _ & I5); [lia|].
  rewrite rolling_mean_length in L1, L2, L3, L4. fold n in L1, L2, L3, L4.
  assert (v1 = sc) by congruence. assert (v2 = lc) by congruence.
  assert (v3 = sp) by congruence. assert (v4 = lp) by congruence. subst v1 v2 v3 v4.
  exists price, sc, lc.
  unfold calculate_body.
  rewrite (bind_getitem _ _ _ _ Hclose). cbv beta.
  rewrite bind_setitem. cbv beta.
  rewrite (bind_getitem _ _ _ _ close_after_short). cbv beta.
  rewrite bind_setitem. cbv beta.
  fold (with_averages self closes df).
  rewrite (bind_getitem _ _ _ _ short_after_long). cbv beta.
  rewrite I1, bind_lift_Ret.
  rewrite (bind_getitem _ _ _ _ long_after_long). cbv beta.
  rewrite I2, bind_lift_Ret.
  rewrite (bind_getitem _ _ _ _ short_after_long). cbv beta.
  rewrite I3, bind_lift_Ret.
  rewrite (bind_getitem _ _ _ _ long_after_long). cbv beta.
  rewrite I4, bind_lift_Ret.
  cbv zeta. rewrite Hcur, Hprev.
  fold current_cross prev_cross. fold buy_signal sell_signal.
  unfold signal_log.
  destruct (buy_signal || sell_signal).
  - unfold bind at 1.
    rewrite bind_emit.
    rewrite (bind_getitem _ _ _ _ close_after_long). cbv beta.
    rewrite I5, bind_lift_Ret, bind_emit.
    rewrite (bind_getitem _ _ _ _ short_after_long). cbv beta.
    rewrite I1, bind_lift_Ret, bind_emit.
    rewrite (bind_getitem _ _ _ _ long_after_long). cbv beta.
    rewrite I2, bind_lift_Ret.
    reflexivity.
  - rewrite bind_ret. reflexivity.
Qed.

Lemma calculate_body_no_close_column (self' : TradingSignals) (df' : DataFrame) :
  df_columns df' !! "close" = None ->
  calculate_body self' df' = ([], df', Raise KeyError).
Proof. intros Hc. unfold calculate_body. apply bind_getitem_None. exact Hc. Qed.

End CalculateBody.

(** What [calculate] can end with, case by case. *)
Lemma calculate_cases `{RollingMean} (self : TradingSignals) (data : option DataFrame) :
  calculate self data = ([Log WARNING MsgInsufficientData], data, Ret (false, false))
  \/ (exists t df e, calculate self data = (t, Some df, Raise e))
  \/ (exists t df prev_cross current_cross,
        calculate self data =
        (t, Some df, Ret (negb prev_cross && current_cross,
                          prev_cross && negb current_cross))).
Proof.
  destruct data as [df|]; [|left; reflexivity].
  unfold calculate.
  destruct (df_len df <? long_window self)%nat; [left; reflexivity|].
  right.
  destruct (df_columns df !! "close") as [closes|] eqn:Hclose.
  - destruct (Nat.le_gt_cases 2 (length closes)) as [Hn|Hn].
    + destruct (calculate_body_two_rows self df closes Hclose Hn)
        as (price & s & l & Hrun).
      right. rewrite Hrun. eauto 10.
    + left. destruct (length closes) as [|[|n]] eqn:Hlen; [| |lia].
      * rewrite (calculate_body_no_rows self df closes Hclose) by lia. eauto.
      * rewrite (calculate_body_one_row self df closes Hclose) by lia. eauto.
  - left. rewrite calculate_body_no_close_column by exact Hclose. eauto.
Qed.

(** ** The claims about [TradingSignals.calculate] *)

(** C5. For an absent series and for every series with fewer rows than
    [long_window], [calculate] returns [(False, False)]: it logs the
    warning, raises nothing and leaves the series as it is. *)
Theorem calculate_insufficient_data `{RollingMean} (self : TradingSignals) (data : option DataFrame) :
  (data = None \/ exists df, data = Some df /\ (df_len df < long_window self)%nat) ->
  calculate self data = ([Log WARNING MsgInsufficientData], data, Ret (false, false)).
Proof.
  intros [->|(df & -> & Hlen)]; [reflexivity|].
  unfold calculate.
  apply Nat.ltb_lt in Hlen. rewrite Hlen. reflexivity.
Qed.

Lemma calculate_insufficient_data_witness :
  calculate (mkTradingSignals 20 50) (Some (bars_of [1; 2; 3]%float))
  = ([Log WARNING MsgInsufficientData], Some (bars_of [1; 2; 3]%float), Ret (false, false)).
Proof.
  apply calculate_insufficient_data.
  right. exists (bars_of [1; 2; 3]%float). split; [reflexivity|].
  vm_compute. lia.
Defined.

(** C4. Whatever the input (absent, of any length, with any content), the
    two flags that [calculate] returns are never both true. *)
Theorem calculate_flags_exclusive `{RollingMean} (self : TradingSignals) (data : option DataFrame)
    (buy_signal sell_signal : bool) :
  result_of (calculate self data) = Ret (buy_signal, sell_signal) ->
  buy_signal && sell_signal = false.
Proof.
  intros Hres.
  destruct (calculate_cases self data)
    as [Hc|[(t & df & e & Hc)|(t & df & p & c & Hc)]];
    rewrite Hc in Hres; simpl in Hres.
  - injection Hres as <- <-. reflexivity.
  - discriminate.
  - injection Hres as <- <-. destruct p, c; reflexivity.
Qed.

Lemma calculate_flags_exclusive_witness : true && false = false.
Proof.
  apply (calculate_flags_exclusive (mkTradingSignals 1 2)
           (Some (bars_of [1; 1; 5]%float)) true false).
  vm_compute. reflexivity.
Defined.

(** C3, amended. For every price series (a frame whose [close] column has
    one value per row) with at least [long_window] rows and at least two
    rows, [calculate] returns [buy = not prev and curr] and
    [sell = prev and not curr], where [curr] compares the short with the
    long moving average at the last row and [prev] at the row before it
    (the averages are the floats that the rolling mean holds there):
    a flip from at-or-below to above gives [(True, False)], a flip from
    above to at-or-below gives [(False, True)], no flip gives
    [(False, False)]. *)
Theorem calculate_crossover `{RollingMean} (self : TradingSignals) (data : DataFrame)
    (closes : list float) :
  df_columns data !! "close" = Some closes ->
  length closes = df_len data ->
  (long_window self <= df_len data)%nat ->
  (2 <= df_len data)%nat ->
  let curr := cross_at self closes (df_len data - 1) in
  let prev := cross_at self closes (df_len data - 2) in
  let returned := result_of (calculate self (Some data)) in
  returned = Ret (negb prev && curr, prev && negb curr)
  /\ (prev = false -> curr = true -> returned = Ret (true, false))
  /\ (prev = true -> curr = false -> returned = Ret (false, true))
  /\ (prev = curr -> returned = Ret (false, false)).
Proof.
  intros Hclose Hlen Hlong Htwo curr prev returned.
  assert (Hret : returned = Ret (negb prev && curr, prev && negb curr)).
  { unfold returned, calculate.
    replace (df_len data <? long_window self)%nat with false
      by (symmetry; apply Nat.ltb_ge; exact Hlong).
    destruct (calculate_body_two_rows self data closes Hclose) as (p & s & l & Hrun);
      [lia|].
    rewrite Hrun. simpl. unfold curr, prev. rewrite Hlen. reflexivity. }
  split; [exact Hret|].
  repeat split.
  - intros Hp Hc. rewrite Hret, Hp, Hc. reflexivity.
  - intros Hp Hc. rewrite Hret, Hp, Hc. reflexivity.
  - intros Hpc. rewrite Hret, Hpc. destruct curr; reflexivity.
Qed.

Lemma calculate_crossover_witness :
  result_of (calculate (mkTradingSignals 1 2) (Some (bars_of [1; 1; 5]%float)))
  = Ret (true, false).
Proof.
  refine (proj1 (proj2 (calculate_crossover (mkTradingSignals 1 2)
                          (bars_of [1; 1; 5]%float) [1; 1; 5]%float _ _ _ _)) _ _).
  - vm_compute. reflexivity.
  - reflexivity.
  - vm_compute. lia.
  - vm_compute. lia.
  - vm_compute. reflexivity.
  - vm_compute. reflexivity.
Defined.

(** C3 as stated fails on a series of one row with [long_window = 1]: the
    length is at least [long_window], and [calculate] returns nothing, it
    raises [IndexError] at [iloc[-2]], whatever the rolling mean computes. *)
Lemma calculate_single_row_raises :
  (long_window (mkTradingSignals 1 1) <= df_len (bars_of [1%float]))%nat
  /\ result_of (calculate (mkTradingSignals 1 1) (Some (bars_of [1%float])))
     = Raise IndexError
  /\ (forall flags,
        result_of (calculate (mkTradingSignals 1 1) (Some (bars_of [1%float])))
        <> Ret flags)
  /\ (forall implementation : RollingMean,
        result_of (@calculate implementation (mkTradingSignals 1 1)
                     (Some (bars_of [1%float])))
        = Raise IndexError).
Proof.
  assert (H : result_of (calculate (mkTradingSignals 1 1) (Some (bars_of [1%float])))
              = Raise IndexError) by (vm_compute; reflexivity).
  split; [vm_compute; lia|]. split; [exact H|].
  split; [intros flags; rewrite H; discriminate|].
  intros implementation. unfold calculate.
  change (df_len (bars_of [1%float]) <? long_window (mkTradingSignals 1 1))%nat
    with false.
  rewrite (calculate_body_one_row (mkTradingSignals 1 1) (bars_of [1%float])
             [1%float]); reflexivity.
Qed.

Lemma float_gt_irrefl (x : float) : float_gt x x = false.
Proof.
  unfold float_gt. rewrite ltb_spec. unfold SFltb, SFcompare.
  destruct (Prim2SF x) as [s|s| |s m e]; try reflexivity.
  - destruct s; reflexivity.
  - rewrite Z.compare_refl, Pos.compare_cont_refl. destruct s; reflexivity.
Qed.

Lemma exceeds_undefined_r (a : option float) : exceeds a None = false.
Proof. destruct a; reflexivity. Qed.

(** With [long_window = 1] and a short window of at least one row, the
    short average at the first row is the long average there, or NaN: it is
    not above it. *)
Lemma cross_at_long_window_1 `{RollingMean} (self : TradingSignals)
    (closes : list float) :
  long_window self = 1%nat ->
  (0 < short_window self)%nat ->
  cross_at self closes 0 = false.
Proof.
  intros Hlw Hsw. unfold cross_at, trailing_mean. rewrite Hlw.
  destruct (short_window self) as [|[|k]]; [lia| |].
  - destruct (rolling_mean 1 closes !! 0%nat) as [v|]; simpl;
      [apply float_gt_irrefl|reflexivity].
  - destruct closes as [|x closes].
    + pose proof (rolling_mean_length (S (S k)) []) as Hlen.
      destruct (rolling_mean (S (S k)) []); [reflexivity|discriminate].
    + rewrite (rolling_mean_unfilled (S (S k)) (x :: closes) 0) by (simpl; lia).
      simpl. destruct (rolling_mean 1 (x :: closes) !! 0%nat); simpl;
        [apply float_gt_nan_l|reflexivity].
Qed.

(** C9. For every price series with exactly [long_window] rows,
    [calculate] never returns [sell = True], and the buy flag it returns is
    true exactly when the short moving average at the last row is strictly
    above the long one: at the row before the last the long rolling mean is
    NaN (its window is not full), the comparison with NaN is false, so
    [prev] is false. With two rows or more it does return, [(curr, False)];
    with fewer (a [long_window] of 1 or 0) it raises, and, the short window
    being at least one row, the short average is not above the long one
    either. *)
Theorem calculate_first_full_window `{RollingMean} (self : TradingSignals)
    (data : DataFrame) (closes : list float) :
  df_columns data !! "close" = Some closes ->
  length closes = df_len data ->
  df_len data = long_window self ->
  let curr := cross_at self closes (df_len data - 1) in
  let returned := result_of (calculate self (Some data)) in
  (forall buy_signal sell_signal,
     returned = Ret (buy_signal, sell_signal) ->
     sell_signal = false /\ (buy_signal = true <-> curr = true))
  /\ ((2 <= df_len data)%nat ->
      rolling_mean (long_window self) closes !! (df_len data - 2)%nat = Some nan
      /\ cross_at self closes (df_len data - 2) = false
      /\ returned = Ret (curr, false))
  /\ ((0 < short_window self)%nat ->
      ((exists sell_signal, returned = Ret (true, sell_signal)) <-> curr = true)).
Proof.
  intros Hclose Hlen Hexact curr returned.
  assert (Hbody : returned = result_of (calculate_body self data)).
  { unfold returned, calculate.
    replace (df_len data <? long_window self)%nat with false
      by (symmetry; apply Nat.ltb_ge; lia).
    destruct (calculate_body self data) as [[t df'] r]. reflexivity. }
  destruct (Nat.le_gt_cases 2 (df_len data)) as [Htwo|Hshort].
  - assert (Hnan : rolling_mean (long_window self) closes !! (df_len data - 2)%nat
                   = Some nan)
      by (apply rolling_mean_unfilled; lia).
    assert (Hprev : cross_at self closes (df_len data - 2) = false).
    { unfold cross_at, trailing_mean. rewrite Hnan.
      destruct (rolling_mean (short_window self) closes !! (df_len data - 2)%nat);
        simpl; [apply float_gt_nan_r|reflexivity]. }
    assert (Hret : returned = Ret (curr, false)).
    { rewrite Hbody.
      destruct (calculate_body_two_rows self data closes Hclose) as (p & s & l & Hrun);
        [lia|].
      rewrite Hrun. simpl. rewrite Hlen, Hprev. fold curr.
      destruct curr; reflexivity. }
    split; [|split].
    + intros b s Hr. rewrite Hret in Hr. injection Hr as <- <-.
      split; [reflexivity|tauto].
    + intros _. auto.
    + intros _. split.
      * intros [s Hr]. rewrite Hret in Hr. injection Hr as -> _. reflexivity.
      * intros Hc. exists false. rewrite Hret, Hc. reflexivity.
  - assert (Hraise : returned = Raise IndexError).
    { rewrite Hbody.
      destruct (length closes) as [|[|n]] eqn:Hn; [| |lia].
      - rewrite (calculate_body_no_rows self data closes Hclose) by lia. reflexivity.
      - rewrite (calculate_body_one_row self data closes Hclose) by lia. reflexivity. }
    split; [|split].
    + intros b s Hr. rewrite Hraise in Hr. discriminate.
    + intros Hge. lia.
    + intros Hsw.
      assert (Hcurr : curr = false).
      { unfold curr.
        destruct (df_len data) as [|[|n]] eqn:Hn; [| |lia].
        - unfold cross_at, trailing_mean. simpl.
          pose proof (rolling_mean_length (short_window self) closes) as Hl.
          rewrite Hlen in Hl.
          destruct (rolling_mean (short_window self) closes); [reflexivity|discriminate].
        - apply cross_at_long_window_1; [lia|exact Hsw]. }
      rewrite Hcurr. split; [intros [s Hr]; rewrite Hraise in Hr|]; discriminate.
Qed.

Lemma calculate_first_full_window_witness :
  result_of (calculate (mkTradingSignals 1 3) (Some (bars_of [1; 1; 5]%float)))
  = Ret (cross_at (mkTradingSignals 1 3) [1; 1; 5]%float 2, false).
Proof.
  refine (proj2 (proj2 (proj1 (proj2
    (calculate_first_full_window (mkTradingSignals 1 3)
       (bars_of [1; 1; 5]%float) [1; 1; 5]%float _ _ _)) _))).
  - vm_compute. reflexivity.
  - reflexivity.
  - reflexivity.
  - vm_compute. lia.
Defined.

(** C2 as stated fails: on a series of three rows [calculate] comes back
    with two columns that the input did not have, with the implementation of
    the examples and with every other. *)
Lemma calculate_adds_columns :
  df_columns (bars_of [1; 1; 5]%float) !! "SMA_short" = None
  /\ df_columns (bars_of [1; 1; 5]%float) !! "SMA_long" = None
  /\ exists data',
       state_of (calculate (mkTradingSignals 1 2) (Some (bars_of [1; 1; 5]%float)))
       = Some data'
       /\ df_columns data' !! "SMA_short" = Some [1; 1; 5]%float
       /\ df_columns data' !! "SMA_long" = Some [nan; 1; 3]%float
       /\ data' <> bars_of [1; 1; 5]%float
       /\ forall implementation : RollingMean,
            exists data'',
              state_of (@calculate implementation (mkTradingSignals 1 2)
                          (Some (bars_of [1; 1; 5]%float))) = Some data''
              /\ df_columns data'' !! "SMA_short"
                 = Some (@rolling_mean implementation 1 [1; 1; 5]%float)
              /\ data'' <> bars_of [1; 1; 5]%float.
Proof.
  split; [vm_compute; reflexivity|]. split; [vm_compute; reflexivity|].
  eexists. split; [vm_compute; reflexivity|].
  split; [vm_compute; reflexivity|]. split; [vm_compute; reflexivity|].
  split.
  - intros Heq.
    apply (f_equal (fun d => df_columns d !! "SMA_short")) in Heq.
    vm_compute in Heq. discriminate.
  - intros implementation.
    assert (Hclose : df_columns (bars_of [1; 1; 5]%float) !! "close"
                     = Some [1; 1; 5]%float) by reflexivity.
    destruct (calculate_body_two_rows (mkTradingSignals 1 2) (bars_of [1; 1; 5]%float)
                [1; 1; 5]%float Hclose) as (price & s & l & Hrun); [simpl; lia|].
    cbv zeta in Hrun.
    exists (with_averages (mkTradingSignals 1 2) [1; 1; 5]%float
              (bars_of [1; 1; 5]%float)).
    split; [|split].
    + unfold calculate.
      change (df_len (bars_of [1; 1; 5]%float) <? long_window (mkTradingSignals 1 2))%nat
        with false.
      rewrite Hrun. reflexivity.
    + apply (short_after_long (mkTradingSignals 1 2)).
    + intros Heq.
      apply (f_equal (fun d => df_columns d !! "SMA_short")) in Heq.
      rewrite (short_after_long (mkTradingSignals 1 2)) in Heq. discriminate.
Qed.

(** C2, amended. [calculate] leaves the row index and every column other
    than [SMA_short] and [SMA_long] (so the closing prices too) as they
    were; it changes nothing when the series is absent or has fewer than
    [long_window] rows; on a series with a [close] column and at least
    [long_window] rows it stores the short and long rolling means in the
    input's columns [SMA_short] and [SMA_long]. *)
Theorem calculate_frame_effect `{RollingMean} (self : TradingSignals) (data : DataFrame) (name : string) :
  name <> "SMA_short" -> name <> "SMA_long" ->
  state_of (calculate self None) = None
  /\ exists data',
    state_of (calculate self (Some data)) = Some data'
    /\ df_index data' = df_index data
    /\ df_columns data' !! name = df_columns data !! name
    /\ ((df_len data < long_window self)%nat -> data' = data)
    /\ (forall closes,
          (long_window self <= df_len data)%nat ->
          df_columns data !! "close" = Some closes ->
          data' = with_averages self closes data).
Proof.
  intros Hs Hl. split; [reflexivity|]. unfold calculate.
  destruct (df_len data <? long_window self)%nat eqn:Hlen.
  - exists data. simpl. apply Nat.ltb_lt in Hlen.
    repeat split; try reflexivity. intros closes Hge. lia.
  - apply Nat.ltb_ge in Hlen.
    destruct (df_columns data !! "close") as [closes|] eqn:Hclose.
    + exists (with_averages self closes data).
      assert (Hst : state_of (calculate_body self data) = with_averages self closes data).
      { destruct (Nat.le_gt_cases 2 (length closes)) as [Hn|Hn].
        - destruct (calculate_body_two_rows self data closes Hclose Hn)
            as (p & s & l & Hrun).
          rewrite Hrun. reflexivity.
        - destruct (length closes) as [|[|n]] eqn:Hn'; [| |lia].
          + rewrite (calculate_body_no_rows self data closes Hclose) by lia. reflexivity.
          + rewrite (calculate_body_one_row self data closes Hclose) by lia. reflexivity. }
      destruct (calculate_body self data) as [[t df'] r]. unfold state_of in Hst. simpl in Hst. subst df'.
      simpl. split; [reflexivity|]. split; [reflexivity|].
      split; [rewrite !lookup_insert_ne by congruence; reflexivity|].
      split; [intros Hlt; lia|].
      intros closes' _ [= ->]. reflexivity.
    + exists data. rewrite calculate_body_no_close_column by exact Hclose. simpl.
      split; [reflexivity|]. split; [reflexivity|]. split; [reflexivity|].
      split; [intros _; reflexivity|].
      intros closes _ [=].
Qed.

Lemma calculate_frame_effect_witness :
  exists data',
    state_of (calculate (mkTradingSignals 1 2) (Some (bars_of [1; 1; 5]%float)))
    = Some data'
    /\ df_columns data' !! "close" = Some [1; 1; 5]%float.
Proof.
  destruct (calculate_frame_effect (mkTradingSignals 1 2) (bars_of [1; 1; 5]%float)
              "close") as (_ & data' & Hst & _ & Hcol & _).
  - discriminate.
  - discriminate.
  - exists data'. split; [exact Hst|]. rewrite Hcol. vm_compute. reflexivity.
Defined.

(** ** The retry loop of the data fetch *)

Lemma attempts_app (t1 t2 : list event) :
  attempts (t1 ++ t2) = (attempts t1 + attempts t2)%nat.
Proof.
  induction t1 as [|ev t1 IH]; simpl; [reflexivity|].
  destruct ev; simpl; rewrite IH; reflexivity.
Qed.

Lemma attempts_retry_rounds symbol limit retries delay attempt n :
  attempts (retry_rounds symbol limit retries delay attempt n) = n.
Proof.
  revert attempt. induction n as [|n IH]; intros attempt; simpl; [reflexivity|].
  rewrite IH. reflexivity.
Qed.

Lemma attempts_final_events symbol limit o :
  attempts (final_events symbol limit o) = 1%nat.
Proof. destruct o as [bars|e]; simpl; [destruct (df_empty bars)|]; reflexivity. Qed.

Lemma outcome_is_api_error {A} (o : outcome A) :
  o = Raise APIError \/ o <> Raise APIError.
Proof. destruct o as [a|[]]; (left; reflexivity) || (right; discriminate). Qed.

Section FetchLemmas.
Context {W : Type} `{Broker W}.
Variables (symbol : string) (limit retries : Z) (delay : nat).

Lemma fetch_loop_eq (attempt : Z) (w : W) :
  fetch_loop symbol limit retries delay attempt w =
  if attempt <? retries then
    match fetch_attempt symbol limit retries delay attempt w with
    | (t, w', Ret (Return v)) => (t, w', Ret v)
    | (t, w', Ret (Next attempt')) =>
        match fetch_loop symbol limit retries delay attempt' w' with
        | (t', w'', r) => (t ++ t', w'', r)
        end
    | (t, w', Raise e) => (t, w', Raise e)
    end
  else ([], w, Ret None).
Proof.
  funelim (fetch_loop symbol limit retries delay attempt w);
    (destruct (attempt <? retries) eqn:E;
     [apply Z.ltb_lt in E | apply Z.ltb_ge in E]; try lia);
    try reflexivity;
    match goal with
    | Hq : fetch_attempt _ _ _ _ _ _ = _ |- _ => rewrite Hq; reflexivity
    end.
Qed.

(** One pass through the loop body, by the outcome of its request. *)
Lemma fetch_attempt_final (attempt : Z) (w w' : W) (o : outcome DataFrame) :
  get_crypto_bars symbol (limit * 2) w = (o, w') ->
  o <> Raise APIError ->
  fetch_attempt symbol limit retries delay attempt w
  = (final_events symbol limit o, w', Ret (Return (final_value limit o))).
Proof.
  intros Hget Hne.
  unfold fetch_attempt, try_except, bind, call. rewrite Hget.
  destruct o as [bars|e]; simpl.
  - destruct (df_empty bars); reflexivity.
  - destruct e; try reflexivity. congruence.
Qed.

Lemma fetch_attempt_retry (attempt : Z) (w w' : W) :
  get_crypto_bars symbol (limit * 2) w = (Raise APIError, w') ->
  attempt + 1 < retries ->
  fetch_attempt symbol limit retries delay attempt w
  = (retry_round symbol limit retries delay (attempt + 1), w', Ret (Next (attempt + 1))).
Proof.
  intros Hget Hlt.
  unfold fetch_attempt, try_except, bind, call. rewrite Hget. simpl.
  apply Z.ltb_lt in Hlt. rewrite Hlt. reflexivity.
Qed.

Lemma fetch_attempt_give_up (attempt : Z) (w w' : W) :
  get_crypto_bars symbol (limit * 2) w = (Raise APIError, w') ->
  retries <= attempt + 1 ->
  fetch_attempt symbol limit retries delay attempt w
  = ([GetCryptoBars symbol (limit * 2); Log ERROR (MsgApiErrorFetching symbol)],
     w', Ret (Return None)).
Proof.
  intros Hget Hge.
  unfold fetch_attempt, try_except, bind, call. rewrite Hget. simpl.
  apply Z.ltb_ge in Hge. rewrite Hge. reflexivity.
Qed.

(** [n] API errors, then an outcome that is not one, with room for the
    [n + 1] attempts: the loop retries [n] times and ends with the last
    attempt. *)
Lemma fetch_loop_settles (n : nat) :
  forall (attempt : Z) (w : W) (o : outcome DataFrame),
    attempt + Z.of_nat n < retries ->
    bars_outcomes symbol (limit * 2) (S n) w = repeat (Raise APIError) n ++ [o] ->
    o <> Raise APIError ->
    trace_of (fetch_loop symbol limit retries delay attempt w)
    = retry_rounds symbol limit retries delay attempt n ++ final_events symbol limit o
    /\ result_of (fetch_loop symbol limit retries delay attempt w)
       = Ret (final_value limit o).
Proof.
  induction n as [|n IH]; intros attempt w o Hroom Hout Hne.
  - simpl in Hout.
    destruct (get_crypto_bars symbol (limit * 2) w) as [o' w'] eqn:Hget.
    injection Hout as ->.
    rewrite fetch_loop_eq.
    replace (attempt <? retries) with true by (symmetry; apply Z.ltb_lt; lia).
    rewrite (fetch_attempt_final attempt w w' o Hget Hne). split; reflexivity.
  - cbn [bars_outcomes] in Hout.
    destruct (get_crypto_bars symbol (limit * 2) w) as [o' w'] eqn:Hget.
    cbn [repeat app] in Hout. injection Hout as -> Hout.
    rewrite fetch_loop_eq.
    replace (attempt <? retries) with true by (symmetry; apply Z.ltb_lt; lia).
    rewrite (fetch_attempt_retry attempt w w' Hget) by lia.
    destruct (IH (attempt + 1) w' o) as [Ht Hr]; [lia|exact Hout|exact Hne|].
    destruct (fetch_loop symbol limit retries delay (attempt + 1) w') as [[t' w''] r].
    unfold trace_of, result_of in *. simpl in *. subst t' r.
    split; reflexivity.
Qed.

(** [n + 1] API errors in a row that use up the attempts: the loop retries
    [n] times, gives up at the last error and returns [None]. *)
Lemma fetch_loop_exhausts (n : nat) :
  forall (attempt : Z) (w : W),
    attempt + Z.of_nat (S n) = retries ->
    bars_outcomes symbol (limit * 2) (S n) w = repeat (Raise APIError) (S n) ->
    trace_of (fetch_loop symbol limit retries delay attempt w)
    = retry_rounds symbol limit retries delay attempt n
      ++ [GetCryptoBars symbol (limit * 2); Log ERROR (MsgApiErrorFetching symbol)]
    /\ result_of (fetch_loop symbol limit retries delay attempt w) = Ret None.
Proof.
  induction n as [|n IH]; intros attempt w Hroom Hout.
  - simpl in Hout.
    destruct (get_crypto_bars symbol (limit * 2) w) as [o' w'] eqn:Hget.
    injection Hout as ->.
    rewrite fetch_loop_eq.
    replace (attempt <? retries) with true by (symmetry; apply Z.ltb_lt; lia).
    rewrite (fetch_attempt_give_up attempt w w' Hget) by lia. split; reflexivity.
  - cbn [bars_outcomes] in Hout.
    destruct (get_crypto_bars symbol (limit * 2) w) as [o' w'] eqn:Hget.
    cbn [repeat] in Hout. injection Hout as -> Hout.
    rewrite fetch_loop_eq.
    replace (attempt <? retries) with true by (symmetry; apply Z.ltb_lt; lia).
    rewrite (fetch_attempt_retry attempt w w' Hget) by lia.
    destruct (IH (attempt + 1) w') as [Ht Hr]; [lia|exact Hout|].
    destruct (fetch_loop symbol limit retries delay (attempt + 1) w') as [[t' w''] r].
    unfold trace_of, result_of in *. simpl in *. subst t' r.
    split; reflexivity.
Qed.

(** Whatever the broker does, the loop makes no more attempts than are
    left, and it returns: every exception of the request is handled. *)
Lemma fetch_loop_bounded (n : nat) :
  forall (attempt : Z) (w : W),
    (Z.to_nat (retries - attempt) <= n)%nat ->
    (attempts (trace_of (fetch_loop symbol limit retries delay attempt w))
     <= Z.to_nat (retries - attempt))%nat
    /\ exists v, result_of (fetch_loop symbol limit retries delay attempt w) = Ret v.
Proof.
  induction n as [|n IH]; intros attempt w Hn; rewrite fetch_loop_eq.
  - replace (attempt <? retries) with false by (symmetry; apply Z.ltb_ge; lia).
    simpl. split; [lia|eauto].
  - destruct (attempt <? retries) eqn:Hlt; [|simpl; split; [lia|eauto]].
    apply Z.ltb_lt in Hlt.
    destruct (get_crypto_bars symbol (limit * 2) w) as [o w'] eqn:Hget.
    destruct (outcome_is_api_error o) as [->|Hne].
    + destruct (Z_lt_dec (attempt + 1) retries) as [Hroom|Hlast].
      * rewrite (fetch_attempt_retry attempt w w' Hget Hroom).
        destruct (IH (attempt + 1) w') as [Hb [v Hv]]; [lia|].
        destruct (fetch_loop symbol limit retries delay (attempt + 1) w') as [[t' w''] r].
        unfold trace_of, result_of in *. simpl in *.
        split; [lia|eauto].
      * rewrite (fetch_attempt_give_up attempt w w' Hget) by lia.
        unfold trace_of, result_of. simpl. split; [lia|eauto].
    + rewrite (fetch_attempt_final attempt w w' o Hget Hne).
      unfold trace_of, result_of. simpl. rewrite attempts_final_events.
      split; [lia|eauto].
Qed.

End FetchLemmas.

(** ** The claims about [AlpacaAPI.get_historical_data] *)

(** C6. The fetch makes at most [retries] attempts and always returns (no
    exception of the request leaves it). It goes on to another attempt only
    after an API error, with the error line, the retry line and the jittered
    sleep between the two requests; [k] API errors followed by any other
    outcome end it at attempt [k + 1]. A non-empty answer at attempt
    [k + 1 <= retries] gives the data (the last [limit] rows, sorted) after
    exactly [k + 1] attempts; API errors on all [retries] attempts give
    [None] after exactly [retries] attempts. *)
Theorem get_historical_data_retries {W : Type} `{Broker W}
    (symbol : string) (limit retries : Z) (delay : nat) (w : W) :
  let fetched := get_historical_data symbol limit retries delay w in
  (attempts (trace_of fetched) <= Z.to_nat retries)%nat
  /\ (exists v, result_of fetched = Ret v)
  /\ (forall (k : nat) (o : outcome DataFrame),
        Z.of_nat (S k) <= retries ->
        bars_outcomes symbol (limit * 2) (S k) w = repeat (Raise APIError) k ++ [o] ->
        o <> Raise APIError ->
        trace_of fetched
        = retry_rounds symbol limit retries delay 0 k ++ final_events symbol limit o
        /\ attempts (trace_of fetched) = S k)
  /\ (forall (k : nat) (bars : DataFrame),
        Z.of_nat (S k) <= retries ->
        bars_outcomes symbol (limit * 2) (S k) w
        = repeat (Raise APIError) k ++ [Ret bars] ->
        df_empty bars = false ->
        result_of fetched = Ret (Some (df_sort_index (df_tail limit bars)))
        /\ attempts (trace_of fetched) = S k)
  /\ (0 < retries ->
      bars_outcomes symbol (limit * 2) (Z.to_nat retries) w
      = repeat (Raise APIError) (Z.to_nat retries) ->
      result_of fetched = Ret None
      /\ attempts (trace_of fetched) = Z.to_nat retries).
Proof.
  intros fetched. unfold fetched, get_historical_data.
  destruct (fetch_loop_bounded symbol limit retries delay (Z.to_nat retries) 0 w)
    as [Hbound Hret]; [lia|].
  rewrite Z.sub_0_r in Hbound.
  split; [exact Hbound|]. split; [exact Hret|].
  split; [|split].
  - intros k o Hk Hout Hne.
    destruct (fetch_loop_settles symbol limit retries delay k 0 w o) as [Ht Hr];
      [lia|exact Hout|exact Hne|].
    split; [exact Ht|].
    rewrite Ht, attempts_app, attempts_retry_rounds, attempts_final_events. lia.
  - intros k bars Hk Hout Hfull.
    destruct (fetch_loop_settles symbol limit retries delay k 0 w (Ret bars)) as [Ht Hr];
      [lia|exact Hout|discriminate|].
    split.
    + rewrite Hr. simpl. rewrite Hfull. reflexivity.
    + rewrite Ht, attempts_app, attempts_retry_rounds, attempts_final_events. lia.
  - intros Hpos Hout.
    destruct (Z.to_nat retries) as [|n] eqn:Hn; [lia|].
    destruct (fetch_loop_exhausts symbol limit retries delay n 0 w) as [Ht Hr];
      [lia|exact Hout|].
    split; [exact Hr|].
    rewrite Ht, attempts_app, attempts_retry_rounds. simpl. lia.
Qed.

Lemma get_historical_data_retries_witness :
  result_of (get_historical_data "BTC/USD" 100 3 5 two_failures_then_bars)
  = Ret (Some (df_sort_index (df_tail 100 (bars_of [1; 1; 5]%float))))
  /\ attempts (trace_of (get_historical_data "BTC/USD" 100 3 5 two_failures_then_bars))
     = 3%nat.
Proof.
  refine (proj1 (proj2 (proj2 (proj2
    (get_historical_data_retries "BTC/USD" 100 3 5 two_failures_then_bars))))
    2%nat (bars_of [1; 1; 5]%float) _ _ _).
  - vm_compute. discriminate.
  - reflexivity.
  - vm_compute. reflexivity.
Defined.

(** C10. When an attempt fails with an exception that is not a broker API
    error, [get_historical_data] logs it and returns [None] at once: that
    attempt is the last, whatever [retries] still allows and whatever the
    broker would have answered next. *)
Theorem get_historical_data_other_exception {W : Type} `{Broker W}
    (symbol : string) (limit retries : Z) (delay : nat) (w : W) (k : nat) (e : exn) :
  Z.of_nat (S k) <= retries ->
  bars_outcomes symbol (limit * 2) (S k) w = repeat (Raise APIError) k ++ [Raise e] ->
  is_APIError e = false ->
  let fetched := get_historical_data symbol limit retries delay w in
  result_of fetched = Ret None
  /\ attempts (trace_of fetched) = S k
  /\ trace_of fetched
     = retry_rounds symbol limit retries delay 0 k
       ++ [GetCryptoBars symbol (limit * 2); Log ERROR (MsgErrorFetching symbol e)].
Proof.
  intros Hk Hout Hother fetched. unfold fetched, get_historical_data.
  destruct (fetch_loop_settles symbol limit retries delay k 0 w (Raise e)) as [Ht Hr];
    [lia|exact Hout| |].
  { intros [= ->]. discriminate. }
  split; [exact Hr|]. split; [|exact Ht].
  rewrite Ht, attempts_app, attempts_retry_rounds. simpl. lia.
Qed.

Lemma get_historical_data_other_exception_witness :
  result_of (get_historical_data "BTC/USD" 100 3 5 transport_error_first) = Ret None
  /\ attempts (trace_of (get_historical_data "BTC/USD" 100 3 5 transport_error_first))
     = 1%nat
  /\ trace_of (get_historical_data "BTC/USD" 100 3 5 transport_error_first)
     = [GetCryptoBars "BTC/USD" 200; Log ERROR (MsgErrorFetching "BTC/USD" IOError)].
Proof.
  refine (get_historical_data_other_exception "BTC/USD" 100 3 5
            transport_error_first 0 IOError _ _ _).
  - vm_compute. discriminate.
  - reflexivity.
  - reflexivity.
Defined.

(** ** The claim about [OrderExecution.place_order] *)

(** A [try] statement keeps the events of its block and may add those of a
    handler. *)
Lemma try_except_trace {St A} (m : Eff St A) (hs : list (handler St A)) (s : St) :
  exists rest, trace_of (try_except m hs s) = trace_of (m s) ++ rest.
Proof.
  unfold try_except. destruct (m s) as [[t s'] [a|e]].
  - exists []. rewrite app_nil_r. reflexivity.
  - destruct (find_handler hs e) as [h|].
    + destruct (h e s') as [[t' s''] r]. exists t'. reflexivity.
    + exists []. rewrite app_nil_r. reflexivity.
Qed.


(** C7. The estimated fee is [qty * current_price * (fee_rate / 100)] in
    binary64 arithmetic, a function of these three inputs; [place_order]
    logs it right after reading the latest trade; for [qty = 1],
    [current_price = 100.0] and [fee_rate = 0.25] it is exactly [0.25]. *)
Theorem place_order_estimated_fee {W : Type} `{Broker W}
    (self : OrderExecution) (symbol : string) (qty : Z) (sd : side)
    (order_type : string) (w w' : W) (current_price q : float) :
  get_latest_trade symbol w = (Ret current_price, w') ->
  float_of_int qty = Ret q ->
  let fee := PrimFloat.mul (PrimFloat.mul q current_price)
                           (PrimFloat.div (fee_rate self) 100%float) in
  estimated_fee self qty current_price = Ret fee
  /\ (exists rest,
        trace_of (place_order self symbol qty sd order_type w)
        = GetLatestTrade symbol :: Log INFO (MsgEstimatedFee qty symbol fee) :: rest)
  /\ estimated_fee (mkOrderExecution 0.25%float) 1 100%float = Ret 0.25%float.
Proof.
  intros Htrade Hq fee.
  assert (Hfee : estimated_fee self qty current_price = Ret fee).
  { unfold estimated_fee. rewrite Hq. reflexivity. }
  split; [exact Hfee|]. split; [|vm_compute; reflexivity].
  unfold place_order.
  match goal with
  | |- context [try_except ?m ?hs w] =>
      destruct (try_except_trace m hs w) as [rest Hrest]; rewrite Hrest
  end.
  unfold bind at 1, call. rewrite Htrade.
  rewrite Hfee, bind_lift_Ret, bind_emit.
  unfold trace_of at 1. simpl. eauto.
Qed.

Lemma place_order_estimated_fee_witness :
  estimated_fee (mkOrderExecution 0.25%float) 1 100%float = Ret 0.25%float
  /\ exists rest,
       trace_of (place_order (mkOrderExecution 0.25%float) "BTC/USD" 1 Buy "market"
                             trade_at_100)
       = GetLatestTrade "BTC/USD"
         :: Log INFO (MsgEstimatedFee 1 "BTC/USD" 0.25%float) :: rest.
Proof.
  destruct (place_order_estimated_fee (mkOrderExecution 0.25%float) "BTC/USD" 1 Buy
              "market" trade_at_100 (mkScript [] [] [] [Ret 42]) 100%float 1%float)
    as (Hfee & Hlog & _).
  - reflexivity.
  - vm_compute. reflexivity.
  - split; [exact Hfee|]. exact Hlog.
Defined.

(** ** The scheduler loop *)

Lemma try_except_catch_all {St} (m : Eff St unit) (h : exn -> Eff St unit) (s : St) :
  (forall e s', result_of (h e s') = Ret tt) ->
  result_of (try_except m [(is_Exception, h)] s) = Ret tt.
Proof.
  intros Hh. unfold try_except. destruct (m s) as [[t s'] [[]|e]]; [reflexivity|].
  simpl. specialize (Hh e s'). destruct (h e s') as [[t' s''] r]. exact Hh.
Qed.

Section LoopLemmas.
Context {W : Type} `{Broker W} `{RollingMean}.
Variables (self : AlpacaTradingBot) (check_interval : Z).

(** A task isolates its errors: [process_symbol] always returns. *)
Lemma process_symbol_returns (symbol : string) (w : W) :
  result_of (process_symbol self symbol w) = Ret tt.
Proof.
  unfold process_symbol. apply try_except_catch_all.
  intros e s'. reflexivity.
Qed.

Lemma gather_process_symbols_return (l : list string) (w : W) :
  result_of (gather (map (process_symbol self) l) w) = Ret tt.
Proof.
  revert w. induction l as [|symbol l IH]; intros w; [reflexivity|].
  simpl. unfold bind. pose proof (process_symbol_returns symbol w) as Htask.
  destruct (process_symbol self symbol w) as [[t w'] r].
  unfold result_of in Htask. simpl in Htask. subst r.
  specialize (IH w'). destruct (gather _ w') as [[t' w''] r']. exact IH.
Qed.

Lemma gather_tasks_return (w : W) :
  result_of (gather (map (process_symbol self) (symbols self)) w) = Ret tt.
Proof. apply gather_process_symbols_return. Qed.

(** The cycle after the clock request: the closed-market sleep if the
    market is closed, then in both cases the tasks and the sleep of
    [check_interval]. *)
Lemma run_cycle_trace (clock : Clock) (w : W) :
  trace_of (run_cycle self check_interval clock w)
  = (if is_open clock then []
     else [Log INFO (MsgMarketClosed (next_open clock));
           AsyncSleep (Z.min check_interval
                         (timedelta_seconds (next_open clock - timestamp clock)))])
    ++ trace_of (gather (map (process_symbol self) (symbols self)) w)
    ++ [AsyncSleep check_interval]
  /\ result_of (run_cycle self check_interval clock w) = Ret tt.
Proof.
  pose proof (gather_tasks_return w) as Hg.
  unfold run_cycle, bind, emit, ret.
  destruct (is_open clock); cbn [negb];
    destruct (gather _ w) as [[t w'] r];
    unfold result_of in Hg; simpl in Hg; subst r;
    split; reflexivity.
Qed.

(** One pass through the loop, by the reply to the clock request. *)
Lemma run_iteration_interrupted (w w' : W) :
  get_clock w = (Interrupted, w') ->
  run_iteration self check_interval w = ([GetClock; Log INFO MsgStopping], w', Break).
Proof. intros Hc. unfold run_iteration. rewrite Hc. reflexivity. Qed.

Lemma run_iteration_clock_error (w w' : W) (e : exn) :
  get_clock w = (Replied (Raise e), w') ->
  run_iteration self check_interval w
  = ([GetClock; Log ERROR (MsgErrorMainLoop e); AsyncSleep 300], w', Continue).
Proof. intros Hc. unfold run_iteration. rewrite Hc. reflexivity. Qed.

Lemma run_iteration_clock (w w' : W) (clock : Clock) :
  get_clock w = (Replied (Ret clock), w') ->
  run_iteration self check_interval w
  = (GetClock :: trace_of (run_cycle self check_interval clock w'),
     state_of (run_cycle self check_interval clock w'), Continue).
Proof.
  intros Hc. unfold run_iteration. rewrite Hc, bind_lift_Ret.
  destruct (run_cycle_trace clock w') as [_ Hr].
  destruct (run_cycle self check_interval clock w') as [[t w''] r].
  unfold result_of in Hr. simpl in Hr. subst r. reflexivity.
Qed.

End LoopLemmas.

(** ** The claims about [AlpacaTradingBot.run] *)

(** C8. An exception that reaches the loop level is caught and logged, a
    sleep of 300 seconds follows, and the pass ends in [Continue]: the next
    pass starts, with the clock request. The loop is left only on the
    cancellation signal, never because of an exception; the tasks keep
    their own exceptions to themselves. *)
Theorem run_recovers_from_errors {W : Type} `{Broker W} `{RollingMean}
    (self : AlpacaTradingBot) (check_interval : Z) (w : W) :
  (forall o w' t w'' e,
     get_clock w = (Replied o, w') ->
     (clock <- lift o ;; run_cycle self check_interval clock)%eff w'
     = (t, w'', Raise e) ->
     run_iteration self check_interval w
     = (GetClock :: t ++ [Log ERROR (MsgErrorMainLoop e); AsyncSleep 300],
        w'', Continue)
     /\ forall n,
          trace_of (run_loop self check_interval (S n) w)
          = (GetClock :: t ++ [Log ERROR (MsgErrorMainLoop e); AsyncSleep 300])
            ++ trace_of (run_loop self check_interval n w'')
          /\ status_of (run_loop self check_interval (S n) w)
             = status_of (run_loop self check_interval n w''))
  /\ (exists rest, trace_of (run_iteration self check_interval w) = GetClock :: rest)
  /\ (status_of (run_iteration self check_interval w) = Break ->
      exists w', get_clock w = (Interrupted, w'))
  /\ (forall symbol w0, result_of (process_symbol self symbol w0) = Ret tt).
Proof.
  split; [|split; [|split]]; [| | |apply process_symbol_returns].
  - intros o w' t w'' e Hc Hraise.
    assert (Hit : run_iteration self check_interval w
                  = (GetClock :: t ++ [Log ERROR (MsgErrorMainLoop e); AsyncSleep 300],
                     w'', Continue)).
    { unfold run_iteration. rewrite Hc, Hraise. reflexivity. }
    split; [exact Hit|].
    intros n. cbn [run_loop]. rewrite Hit.
    destruct (run_loop self check_interval n w'') as [[t' w3] st].
    split; reflexivity.
  - unfold run_iteration.
    destruct (get_clock w) as [[o|] w']; [|eexists; reflexivity].
    destruct (bind _ _ w') as [[t w''] [a|e]]; eexists; reflexivity.
  - unfold run_iteration.
    destruct (get_clock w) as [[o|] w']; [|eauto].
    destruct (bind _ _ w') as [[t w''] [a|e]]; discriminate.
Qed.

Lemma run_recovers_from_errors_witness :
  trace_of (run_loop (mkAlpacaTradingBot [] (mkTradingSignals 20 50)
                        (mkOrderExecution 0.25%float)) 900 2 clock_error_then_open)
  = [GetClock; Log ERROR (MsgErrorMainLoop APIError); AsyncSleep 300;
     GetClock; AsyncSleep 900]
  /\ status_of (run_loop (mkAlpacaTradingBot [] (mkTradingSignals 20 50)
                            (mkOrderExecution 0.25%float)) 900 2 clock_error_then_open)
     = Continue.
Proof.
  assert (Hclock : get_clock clock_error_then_open
                   = (Replied (Raise APIError),
                      mkScript [Replied (Ret (mkClock true 0 0))] [] [] []))
    by reflexivity.
  destruct (proj1 (run_recovers_from_errors
              (mkAlpacaTradingBot [] (mkTradingSignals 20 50)
                 (mkOrderExecution 0.25%float)) 900 clock_error_then_open)
              _ _ [] _ APIError Hclock eq_refl) as [_ Hloop].
  destruct (Hloop 1%nat) as [Ht Hs].
  split; [rewrite Ht | rewrite Hs]; reflexivity.
Defined.

(** In a pass that finds the market closed, the closed-market sleep is
    followed by the tasks of every symbol and by the sleep of
    [check_interval]; only then does the pass end. *)
Lemma run_iteration_closed_market {W : Type} `{Broker W} `{RollingMean}
    (self : AlpacaTradingBot) (check_interval : Z) (w w' : W) (clock : Clock) :
  get_clock w = (Replied (Ret clock), w') ->
  is_open clock = false ->
  trace_of (run_iteration self check_interval w)
  = [GetClock;
     Log INFO (MsgMarketClosed (next_open clock));
     AsyncSleep (Z.min check_interval
                   (timedelta_seconds (next_open clock - timestamp clock)))]
    ++ trace_of (gather (map (process_symbol self) (symbols self)) w')
    ++ [AsyncSleep check_interval].
Proof.
  intros Hc Hclosed.
  rewrite (run_iteration_clock self check_interval w w' clock Hc).
  destruct (run_cycle_trace self check_interval clock w') as [Ht _].
  unfold trace_of at 1. simpl. rewrite Ht, Hclosed. reflexivity.
Qed.

(** C1, the code at the failing inputs. With [check_interval = 900] and the
    market closed for another 2000 seconds, the pass sleeps 900 seconds and
    then, without asking the clock again, fetches the bars and submits a
    buy order. With the market closed for one day and ten seconds, the
    closed-market sleep lasts 10 seconds, not 900. *)
Theorem run_iteration_trades_while_closed :
  trace_of (run_iteration one_symbol_bot 900 closed_for_2000s)
  = [GetClock;
     Log INFO (MsgMarketClosed 2000);
     AsyncSleep 900;
     GetCryptoBars "BTC/USD" 200;
     Log INFO (MsgSignalGenerated Buy);
     Log INFO (MsgCurrentPrice 5%float);
     Log INFO (MsgShortSMA 5%float);
     Log INFO (MsgLongSMA 3%float);
     Log INFO (MsgBuySignal "BTC/USD");
     GetLatestTrade "BTC/USD";
     Log INFO (MsgEstimatedFee 1 "BTC/USD" 0.25%float);
     SubmitOrder (mkOrderRequest "BTC/USD" 1 Buy "market" "gtc");
     Log INFO (MsgOrderPlaced Buy 1 "BTC/USD" 100%float);
     AsyncSleep 900]
  /\ firstn 3 (trace_of (run_iteration one_symbol_bot 900 closed_for_a_day_and_10s))
     = [GetClock; Log INFO (MsgMarketClosed 86410); AsyncSleep 10].
Proof. split; vm_compute; reflexivity. Qed.

(** * Further properties of the code *)

(** ** The data fetch: no attempts, empty answers, the shape of the data *)

(** With [retries <= 0] the loop body never runs: [get_historical_data]
    sends no request, logs nothing and returns [None]. *)
Theorem get_historical_data_no_retries {W : Type} `{Broker W}
    (symbol : string) (limit retries : Z) (delay : nat) (w : W) :
  retries <= 0 ->
  get_historical_data symbol limit retries delay w = ([], w, Ret None).
Proof.
  intros Hr. unfold get_historical_data. rewrite fetch_loop_eq.
  replace (0 <? retries) with false by (symmetry; apply Z.ltb_ge; exact Hr).
  reflexivity.
Qed.

Lemma get_historical_data_no_retries_witness :
  get_historical_data "BTC/USD" 100 0 5 two_failures_then_bars
  = ([], two_failures_then_bars, Ret None).
Proof. apply get_historical_data_no_retries. lia. Defined.

(** An empty answer is final: after [k] retried API errors, an empty frame
    at attempt [k + 1] gives [None] with the no-data warning, and no further
    request is sent although attempts are left. *)
Theorem get_historical_data_empty_answer {W : Type} `{Broker W}
    (symbol : string) (limit retries : Z) (delay : nat) (w : W)
    (k : nat) (bars : DataFrame) :
  Z.of_nat (S k) <= retries ->
  bars_outcomes symbol (limit * 2) (S k) w = repeat (Raise APIError) k ++ [Ret bars] ->
  df_empty bars = true ->
  let fetched := get_historical_data symbol limit retries delay w in
  result_of fetched = Ret None
  /\ trace_of fetched
     = retry_rounds symbol limit retries delay 0 k
       ++ [GetCryptoBars symbol (limit * 2); Log WARNING (MsgNoData symbol)]
  /\ attempts (trace_of fetched) = S k.
Proof.
  intros Hk Hout Hempty fetched. unfold fetched, get_historical_data.
  destruct (fetch_loop_settles symbol limit retries delay k 0 w (Ret bars)) as [Ht Hr];
    [lia|exact Hout|discriminate|].
  simpl in Ht, Hr. rewrite Hempty in Ht, Hr.
  split; [exact Hr|]. split; [exact Ht|].
  rewrite Ht, attempts_app, attempts_retry_rounds. simpl. lia.
Qed.

Lemma get_historical_data_empty_answer_witness :
  result_of (get_historical_data "BTC/USD" 100 3 5 empty_then_bars) = Ret None
  /\ trace_of (get_historical_data "BTC/USD" 100 3 5 empty_then_bars)
     = [GetCryptoBars "BTC/USD" 200; Log WARNING (MsgNoData "BTC/USD")]
  /\ attempts (trace_of (get_historical_data "BTC/USD" 100 3 5 empty_then_bars)) = 1%nat.
Proof.
  refine (get_historical_data_empty_answer "BTC/USD" 100 3 5 empty_then_bars 0
            (bars_of []) _ _ _).
  - vm_compute. discriminate.
  - reflexivity.
  - vm_compute. reflexivity.
Defined.

(** With attempts to make, the first event of the fetch is the request for
    the bars of the symbol, over [limit * 2] hours. *)
Lemma get_historical_data_first_request {W : Type} `{Broker W}
    (symbol : string) (limit retries : Z) (delay : nat) (w : W) :
  0 < retries ->
  exists rest,
    trace_of (get_historical_data symbol limit retries delay w)
    = GetCryptoBars symbol (limit * 2) :: rest.
Proof.
  intros Hr. unfold get_historical_data. rewrite fetch_loop_eq.
  replace (0 <? retries) with true by (symmetry; apply Z.ltb_lt; exact Hr).
  destruct (get_crypto_bars symbol (limit * 2) w) as [o w'] eqn:Hget.
  destruct (outcome_is_api_error o) as [->|Hne].
  - destruct (Z_lt_dec (0 + 1) retries) as [Hroom|Hlast].
    + rewrite (fetch_attempt_retry symbol limit retries delay 0 w w' Hget Hroom).
      destruct (fetch_loop _ _ _ _ _ w') as [[t' w''] r]. eexists. reflexivity.
    + rewrite (fetch_attempt_give_up symbol limit retries delay 0 w w' Hget) by lia.
      eexists. reflexivity.
  - rewrite (fetch_attempt_final symbol limit retries delay 0 w w' o Hget Hne).
    destruct o as [bars|e]; simpl; [destruct (df_empty bars)|]; eexists; reflexivity.
Qed.

(** *** Sorting the rows by the index *)

Lemma insert_key_perm (k : Z) (p : nat) (l : list (Z * nat)) :
  insert_key k p l ≡ₚ (k, p) :: l.
Proof.
  induction l as [|[k' p'] l IH]; simpl; [reflexivity|].
  destruct (k <=? k'); [reflexivity|].
  rewrite IH. apply perm_swap.
Qed.

Lemma insert_key_HdRel (a : Z * nat) (k : Z) (p : nat) (l : list (Z * nat)) :
  a.1 <= k -> HdRel key_le a l -> HdRel key_le a (insert_key k p l).
Proof.
  intros Hak Hhd. destruct l as [|[k' p'] l]; simpl.
  - constructor. exact Hak.
  - destruct (k <=? k'); constructor; [exact Hak|].
    inversion Hhd; subst. assumption.
Qed.

Lemma insert_key_sorted (k : Z) (p : nat) (l : list (Z * nat)) :
  Sorted key_le l -> Sorted key_le (insert_key k p l).
Proof.
  induction 1 as [|[k' p'] l Hs IH Hhd]; simpl.
  - repeat constructor.
  - destruct (k <=? k') eqn:E.
    + apply Z.leb_le in E. constructor; [constructor; assumption|].
      constructor. exact E.
    + apply Z.leb_gt in E. constructor; [exact IH|].
      apply insert_key_HdRel; [simpl; lia|exact Hhd].
Qed.

Lemma foldr_insert_key_perm (l : list (Z * nat)) :
  foldr (fun kp acc => insert_key kp.1 kp.2 acc) [] l ≡ₚ l.
Proof.
  induction l as [|[k p] l IH]; simpl; [reflexivity|].
  rewrite insert_key_perm, IH. reflexivity.
Qed.

Lemma foldr_insert_key_sorted (l : list (Z * nat)) :
  Sorted key_le (foldr (fun kp acc => insert_key kp.1 kp.2 acc) [] l).
Proof.
  induction l as [|[k p] l IH]; simpl; [constructor|].
  apply insert_key_sorted. exact IH.
Qed.

Lemma zip_seq_lookup (l : list Z) (a : nat) :
  Forall (fun kp : Z * nat => (a <= kp.2)%nat /\ l !! (kp.2 - a)%nat = Some kp.1)
         (zip l (seq a (length l))).
Proof.
  revert a. induction l as [|x l IH]; intros a; simpl; constructor.
  - simpl. split; [lia|]. rewrite Nat.sub_diag. reflexivity.
  - eapply Forall_impl; [apply (IH (S a))|].
    intros [k p] [Hle Hlk]. simpl in *. split; [lia|].
    replace (p - a)%nat with (S (p - S a)) by lia. exact Hlk.
Qed.

Lemma reorder_pairs (idx : list Z) (pairs : list (Z * nat)) :
  Forall (fun kp : Z * nat => idx !! kp.2 = Some kp.1) pairs ->
  reorder (pairs.*2) idx = pairs.*1.
Proof.
  unfold reorder. induction 1 as [|[k p] pairs Hkp _ IH]; simpl; [reflexivity|].
  simpl in Hkp. rewrite Hkp. simpl. f_equal. exact IH.
Qed.

Lemma sorted_keys (pairs : list (Z * nat)) :
  Sorted key_le pairs -> Sorted Z.le (pairs.*1).
Proof.
  induction 1 as [|a l Hs IH Hhd]; simpl; constructor; [exact IH|].
  destruct Hhd; simpl; constructor. assumption.
Qed.

(** [sort_index] puts the index in ascending order and keeps its values. *)
Lemma sort_index_sorted (df : DataFrame) :
  Sorted Z.le (df_index (df_sort_index df))
  /\ df_index (df_sort_index df) ≡ₚ df_index df.
Proof.
  unfold df_sort_index, sort_positions. cbn [df_index].
  fold (sorted_pairs (df_index df)).
  assert (Hperm : sorted_pairs (df_index df)
                  ≡ₚ zip (df_index df) (seq 0 (length (df_index df))))
    by apply foldr_insert_key_perm.
  assert (Hre : reorder ((sorted_pairs (df_index df)).*2) (df_index df)
                = (sorted_pairs (df_index df)).*1).
  { apply reorder_pairs. rewrite Hperm.
    eapply Forall_impl; [apply (zip_seq_lookup (df_index df) 0)|].
    intros [k p] [_ Hlk]. simpl in *. rewrite Nat.sub_0_r in Hlk. exact Hlk. }
  rewrite Hre. split.
  - apply sorted_keys. apply foldr_insert_key_sorted.
  - rewrite Hperm. rewrite fst_zip; [reflexivity|]. rewrite length_seq. lia.
Qed.

Lemma tail_rows_length {A} (n : Z) (l : list A) :
  0 <= n -> length (tail_rows n l) = Nat.min (Z.to_nat n) (length l).
Proof.
  intros Hn. unfold tail_rows.
  replace (0 <=? n) with true by (symmetry; apply Z.leb_le; exact Hn).
  rewrite length_drop. lia.
Qed.

Lemma tail_rows_suffix {A} (n : Z) (l : list A) :
  exists dropped, l = dropped ++ tail_rows n l.
Proof.
  unfold tail_rows. destruct (0 <=? n); eexists; symmetry; apply take_drop.
Qed.

Lemma sort_positions_perm (idx : list Z) :
  sort_positions idx ≡ₚ seq 0 (length idx).
Proof.
  unfold sort_positions. rewrite foldr_insert_key_perm.
  rewrite snd_zip; [reflexivity|]. rewrite length_seq. lia.
Qed.

Lemma reorder_lookup {A} (l : list A) (perm : list nat) :
  Forall (fun p => (p < length l)%nat) perm ->
  forall i p, perm !! i = Some p -> reorder perm l !! i = l !! p.
Proof.
  unfold reorder. induction 1 as [|q perm Hq _ IH]; intros i p Hi; [discriminate|].
  destruct (lookup_lt_is_Some_2 l q Hq) as [x Hx].
  simpl. rewrite Hx. simpl.
  destruct i as [|i]; simpl in *.
  - injection Hi as <-. symmetry. exact Hx.
  - apply IH. exact Hi.
Qed.

Lemma reorder_length {A} (l : list A) (perm : list nat) :
  Forall (fun p => (p < length l)%nat) perm -> length (reorder perm l) = length perm.
Proof.
  unfold reorder. induction 1 as [|q perm Hq _ IH]; [reflexivity|].
  destruct (lookup_lt_is_Some_2 l q Hq) as [x Hx].
  simpl. rewrite Hx. simpl. f_equal. exact IH.
Qed.

Lemma tail_rows_drop {A} (n : Z) (l : list A) :
  0 <= n -> tail_rows n l = drop (length l - Z.to_nat n)%nat l.
Proof.
  intros Hn. unfold tail_rows.
  replace (0 <=? n) with true by (symmetry; apply Z.leb_le; exact Hn). reflexivity.
Qed.

(** The data of a successful fetch: for [limit >= 0] they are the last
    [limit] rows of the broker's answer (all of them if there are fewer),
    in ascending order of the index. Row [i] of the data is row [perm !! i]
    of those last rows, in the index and in every column alike; no column
    is added or lost. *)
Theorem get_historical_data_shape {W : Type} `{Broker W}
    (symbol : string) (limit retries : Z) (delay : nat) (w : W)
    (k : nat) (bars : DataFrame) :
  0 <= limit ->
  Z.of_nat (S k) <= retries ->
  bars_outcomes symbol (limit * 2) (S k) w = repeat (Raise APIError) k ++ [Ret bars] ->
  df_empty bars = false ->
  let rows := Nat.min (Z.to_nat limit) (df_len bars) in
  let skipped := (df_len bars - Z.to_nat limit)%nat in
  exists data perm,
    result_of (get_historical_data symbol limit retries delay w) = Ret (Some data)
    /\ perm ≡ₚ seq 0 rows
    /\ df_len data = rows
    /\ Sorted Z.le (df_index data)
    /\ (forall i p, perm !! i = Some p ->
          df_index data !! i = df_index bars !! (skipped + p)%nat)
    /\ (forall name col,
          df_columns bars !! name = Some col ->
          length col = df_len bars ->
          exists col',
            df_columns data !! name = Some col'
            /\ length col' = rows
            /\ forall i p, perm !! i = Some p -> col' !! i = col !! (skipped + p)%nat)
    /\ (forall name, df_columns bars !! name = None -> df_columns data !! name = None).
Proof.
  intros Hlimit Hk Hout Hfull rows skipped.
  set (tail_index := tail_rows limit (df_index bars)).
  set (perm := sort_positions tail_index).
  assert (Hrows : length tail_index = rows).
  { unfold tail_index. rewrite tail_rows_length by exact Hlimit. reflexivity. }
  assert (Hperm : perm ≡ₚ seq 0 rows).
  { unfold perm. rewrite sort_positions_perm, Hrows. reflexivity. }
  assert (Hvalid : Forall (fun p => (p < rows)%nat) perm).
  { rewrite Hperm. apply Forall_forall. intros p Hp.
    apply elem_of_seq in Hp. lia. }
  exists (df_sort_index (df_tail limit bars)), perm.
  destruct (fetch_loop_settles symbol limit retries delay k 0 w (Ret bars)) as [_ Hr];
    [lia|exact Hout|discriminate|].
  simpl in Hr. rewrite Hfull in Hr.
  destruct (sort_index_sorted (df_tail limit bars)) as [Hsorted Hpi].
  split; [exact Hr|]. split; [exact Hperm|].
  split.
  { unfold df_len. rewrite Hpi. exact Hrows. }
  split; [exact Hsorted|].
  split; [|split].
  - intros i p Hi.
    change (df_index (df_sort_index (df_tail limit bars)))
      with (reorder perm tail_index).
    rewrite (reorder_lookup tail_index perm) with (p := p);
      [|rewrite Hrows; exact Hvalid|exact Hi].
    unfold tail_index. rewrite tail_rows_drop by exact Hlimit.
    rewrite lookup_drop. reflexivity.
  - intros name col Hcol Hlen.
    exists (reorder perm (tail_rows limit col)).
    assert (Hcl : length (tail_rows limit col) = rows).
    { rewrite tail_rows_length by exact Hlimit. rewrite Hlen. reflexivity. }
    split; [|split].
    + change (df_columns (df_sort_index (df_tail limit bars)))
        with (reorder perm <$> (tail_rows limit <$> df_columns bars)).
      rewrite !lookup_fmap, Hcol. reflexivity.
    + rewrite reorder_length by (rewrite Hcl; exact Hvalid).
      rewrite Hperm. apply length_seq.
    + intros i p Hi.
      rewrite (reorder_lookup (tail_rows limit col) perm) with (p := p);
        [|rewrite Hcl; exact Hvalid|exact Hi].
      rewrite tail_rows_drop by exact Hlimit.
      rewrite lookup_drop, Hlen. reflexivity.
  - intros name Hnone.
    change (df_columns (df_sort_index (df_tail limit bars)))
      with (reorder perm <$> (tail_rows limit <$> df_columns bars)).
    rewrite !lookup_fmap, Hnone. reflexivity.
Qed.

Lemma get_historical_data_shape_witness :
  exists data perm,
    result_of (get_historical_data "BTC/USD" 2 3 5
                 (mkScript [] [Ret unordered_bars] [] [])) = Ret (Some data)
    /\ perm ≡ₚ seq 0 (Nat.min (Z.to_nat 2) (df_len unordered_bars))
    /\ df_len data = Nat.min (Z.to_nat 2) (df_len unordered_bars)
    /\ Sorted Z.le (df_index data)
    /\ (forall i p, perm !! i = Some p ->
          df_index data !! i
          = df_index unordered_bars !! (df_len unordered_bars - Z.to_nat 2 + p)%nat)
    /\ (forall name col,
          df_columns unordered_bars !! name = Some col ->
          length col = df_len unordered_bars ->
          exists col',
            df_columns data !! name = Some col'
            /\ length col' = Nat.min (Z.to_nat 2) (df_len unordered_bars)
            /\ forall i p, perm !! i = Some p ->
                 col' !! i = col !! (df_len unordered_bars - Z.to_nat 2 + p)%nat)
    /\ (forall name, df_columns unordered_bars !! name = None ->
          df_columns data !! name = None).
Proof.
  refine (get_historical_data_shape "BTC/USD" 2 3 5
            (mkScript [] [Ret unordered_bars] [] []) 0 unordered_bars _ _ _ _).
  - lia.
  - vm_compute. discriminate.
  - reflexivity.
  - vm_compute. reflexivity.
Defined.

(** ** The signal calculation: missing column, log lines, running it twice *)

(** A frame with enough rows and no [close] column: [data['close']] raises
    [KeyError] before anything is written or logged. *)
Theorem calculate_missing_close `{RollingMean} (self : TradingSignals) (data : DataFrame) :
  (long_window self <= df_len data)%nat ->
  df_columns data !! "close" = None ->
  calculate self (Some data) = ([], Some data, Raise KeyError).
Proof.
  intros Hlen Hclose. unfold calculate.
  replace (df_len data <? long_window self)%nat with false
    by (symmetry; apply Nat.ltb_ge; exact Hlen).
  rewrite calculate_body_no_close_column by exact Hclose. reflexivity.
Qed.

Lemma calculate_missing_close_witness :
  calculate (mkTradingSignals 1 2) (Some (mkDataFrame [0; 1; 2] ∅))
  = ([], Some (mkDataFrame [0; 1; 2] ∅), Raise KeyError).
Proof.
  apply calculate_missing_close.
  - vm_compute. lia.
  - reflexivity.
Defined.

(** With two rows or more, the log lines of lines 103-107 carry the last
    close and the last values of the two rolling columns. *)
Lemma calculate_body_two_rows_log `{RollingMean} (self : TradingSignals) (df : DataFrame)
    (closes : list float) (price sma_short sma_long : float) :
  df_columns df !! "close" = Some closes ->
  (2 <= length closes)%nat ->
  closes !! (length closes - 1)%nat = Some price ->
  rolling_mean (short_window self) closes !! (length closes - 1)%nat = Some sma_short ->
  rolling_mean (long_window self) closes !! (length closes - 1)%nat = Some sma_long ->
  let current_cross := cross_at self closes (length closes - 1) in
  let prev_cross := cross_at self closes (length closes - 2) in
  let buy_signal := negb prev_cross && current_cross in
  let sell_signal := prev_cross && negb current_cross in
  calculate_body self df =
  (signal_log buy_signal sell_signal price sma_short sma_long,
   with_averages self closes df, Ret (buy_signal, sell_signal)).
Proof.
  intros Hclose Hn Hprice Hshort Hlong current_cross prev_cross buy_signal sell_signal.
  destruct (rolling_cross self closes (length closes - 1)) as (sc & lc & Hsc & Hlc & Hcur);
    [lia|].
  destruct (rolling_cross self closes (length closes - 2)) as (sp & lp & Hsp & Hlp & Hprev);
    [lia|].
  destruct (iloc_minus_1 (rolling_mean (short_window self) closes)) as (v1 & L1 & I1);
    [rewrite rolling_mean_length; lia|].
  destruct (iloc_minus_1 (rolling_mean (long_window self) closes)) as (v2 & L2 & I2);
    [rewrite rolling_mean_length; lia|].
  destruct (iloc_minus_2 (rolling_mean (short_window self) closes)) as (v3 & L3 & I3);
    [rewrite rolling_mean_length; lia|].
  destruct (iloc_minus_2 (rolling_mean (long_window self) closes)) as (v4 & L4 & I4);
    [rewrite rolling_mean_length; lia|].
  destruct (iloc_minus_1 closes) as (v5 & L5 & I5); [lia|].
  rewrite rolling_mean_length in L1, L2, L3, L4.
  assert (v1 = sc) by congruence. assert (v2 = lc) by congruence.
  assert (v3 = sp) by congruence. assert (v4 = lp) by congruence.
  assert (v5 = price) by congruence.
  assert (sc = sma_short) by congruence. assert (lc = sma_long) by congruence.
  subst v1 v2 v3 v4 v5 sc lc.
  pose proof (close_after_short self df closes Hclose) as Hc1.
  pose proof (close_after_long self df closes Hclose) as Hc2.
  pose proof (short_after_long self df closes) as Hs2.
  pose proof (long_after_long self df closes) as Hl2.
  unfold calculate_body.
  rewrite (bind_getitem _ _ _ _ Hclose). cbv beta.
  rewrite bind_setitem. cbv beta.
  rewrite (bind_getitem _ _ _ _ Hc1). cbv beta.
  rewrite bind_setitem. cbv beta.
  fold (with_averages self closes df).
  rewrite (bind_getitem _ _ _ _ Hs2). cbv beta.
  rewrite I1, bind_lift_Ret.
  rewrite (bind_getitem _ _ _ _ Hl2). cbv beta.
  rewrite I2, bind_lift_Ret.
  rewrite (bind_getitem _ _ _ _ Hs2). cbv beta.
  rewrite I3, bind_lift_Ret.
  rewrite (bind_getitem _ _ _ _ Hl2). cbv beta.
  rewrite I4, bind_lift_Ret.
  cbv zeta. rewrite Hcur, Hprev.
  fold current_cross prev_cross. fold buy_signal sell_signal.
  unfold signal_log.
  destruct (buy_signal || sell_signal).
  - unfold bind at 1.
    rewrite bind_emit.
    rewrite (bind_getitem _ _ _ _ Hc2). cbv beta.
    rewrite I5, bind_lift_Ret, bind_emit.
    rewrite (bind_getitem _ _ _ _ Hs2). cbv beta.
    rewrite I1, bind_lift_Ret, bind_emit.
    rewrite (bind_getitem _ _ _ _ Hl2). cbv beta.
    rewrite I2, bind_lift_Ret.
    reflexivity.
  - rewrite bind_ret. reflexivity.
Qed.

(** On a price series with at least [long_window] rows and at least two,
    [calculate] logs exactly when it returns a signal: four INFO lines with
    the kind of the signal, the last close and the short and long averages
    of the last row; without a signal it logs nothing. *)
Theorem calculate_logs_signal `{RollingMean} (self : TradingSignals) (data : DataFrame)
    (closes : list float) :
  df_columns data !! "close" = Some closes ->
  length closes = df_len data ->
  (long_window self <= df_len data)%nat ->
  (2 <= df_len data)%nat ->
  exists buy_signal sell_signal price sma_short sma_long,
    result_of (calculate self (Some data)) = Ret (buy_signal, sell_signal)
    /\ closes !! (df_len data - 1)%nat = Some price
    /\ rolling_mean (short_window self) closes !! (df_len data - 1)%nat = Some sma_short
    /\ rolling_mean (long_window self) closes !! (df_len data - 1)%nat = Some sma_long
    /\ trace_of (calculate self (Some data))
       = (if buy_signal || sell_signal then
            [Log INFO (MsgSignalGenerated (if buy_signal then Buy else Sell));
             Log INFO (MsgCurrentPrice price);
             Log INFO (MsgShortSMA sma_short);
             Log INFO (MsgLongSMA sma_long)]
          else []).
Proof.
  intros Hclose Hlen Hlong Htwo.
  destruct (lookup_lt_is_Some_2 closes (length closes - 1)%nat) as [price Hprice]; [lia|].
  destruct (lookup_lt_is_Some_2 (rolling_mean (short_window self) closes)
              (length closes - 1)%nat) as [ss Hss]; [rewrite rolling_mean_length; lia|].
  destruct (lookup_lt_is_Some_2 (rolling_mean (long_window self) closes)
              (length closes - 1)%nat) as [sl Hsl]; [rewrite rolling_mean_length; lia|].
  pose proof (calculate_body_two_rows_log self data closes price ss sl Hclose
                ltac:(lia) Hprice Hss Hsl) as Hrun.
  cbv zeta in Hrun.
  eexists _, _, price, ss, sl.
  unfold calculate.
  replace (df_len data <? long_window self)%nat with false
    by (symmetry; apply Nat.ltb_ge; exact Hlong).
  rewrite Hrun. rewrite <- Hlen.
  split; [reflexivity|]. split; [exact Hprice|]. split; [exact Hss|].
  split; [exact Hsl|]. reflexivity.
Qed.

Lemma calculate_logs_signal_witness :
  exists buy_signal sell_signal price sma_short sma_long,
    result_of (calculate (mkTradingSignals 1 2) (Some (bars_of [1; 1; 5]%float)))
    = Ret (buy_signal, sell_signal)
    /\ [1; 1; 5]%float !! (df_len (bars_of [1; 1; 5]%float) - 1)%nat = Some price
    /\ rolling_mean 1 [1; 1; 5]%float !! (df_len (bars_of [1; 1; 5]%float) - 1)%nat
       = Some sma_short
    /\ rolling_mean 2 [1; 1; 5]%float !! (df_len (bars_of [1; 1; 5]%float) - 1)%nat
       = Some sma_long
    /\ trace_of (calculate (mkTradingSignals 1 2) (Some (bars_of [1; 1; 5]%float)))
       = (if buy_signal || sell_signal then
            [Log INFO (MsgSignalGenerated (if buy_signal then Buy else Sell));
             Log INFO (MsgCurrentPrice price);
             Log INFO (MsgShortSMA sma_short);
             Log INFO (MsgLongSMA sma_long)]
          else []).
Proof.
  refine (calculate_logs_signal (mkTradingSignals 1 2) (bars_of [1; 1; 5]%float)
            [1; 1; 5]%float _ _ _ _).
  - vm_compute. reflexivity.
  - reflexivity.
  - vm_compute. lia.
  - vm_compute. lia.
Defined.

Lemma with_averages_twice `{RollingMean} (self : TradingSignals) (closes : list float) (df : DataFrame) :
  with_averages self closes (with_averages self closes df) = with_averages self closes df.
Proof.
  unfold with_averages. cbn [df_index df_columns]. f_equal.
  apply map_eq. intros name.
  destruct (decide (name = "SMA_long")) as [->|Hl].
  - rewrite !lookup_insert_eq. reflexivity.
  - rewrite (lookup_insert_ne _ "SMA_long" name) by congruence.
    destruct (decide (name = "SMA_short")) as [->|Hs].
    + rewrite lookup_insert_eq.
      rewrite (lookup_insert_ne _ "SMA_long" "SMA_short") by discriminate.
      rewrite lookup_insert_eq. reflexivity.
    + rewrite !lookup_insert_ne by congruence. reflexivity.
Qed.

(** What lines 93-109 log and return depends on the frame through its
    closing prices only. *)
Lemma calculate_body_by_closes `{RollingMean} (self : TradingSignals) (df df' : DataFrame)
    (closes : list float) :
  df_columns df !! "close" = Some closes ->
  df_columns df' !! "close" = Some closes ->
  trace_of (calculate_body self df') = trace_of (calculate_body self df)
  /\ result_of (calculate_body self df') = result_of (calculate_body self df)
  /\ state_of (calculate_body self df) = with_averages self closes df
  /\ state_of (calculate_body self df') = with_averages self closes df'.
Proof.
  intros Hc Hc'.
  destruct (length closes) as [|[|n]] eqn:Hn.
  - rewrite (calculate_body_no_rows self df closes Hc) by lia.
    rewrite (calculate_body_no_rows self df' closes Hc') by lia. auto.
  - rewrite (calculate_body_one_row self df closes Hc) by lia.
    rewrite (calculate_body_one_row self df' closes Hc') by lia. auto.
  - destruct (lookup_lt_is_Some_2 closes (length closes - 1)%nat) as [price Hprice];
      [lia|].
    destruct (lookup_lt_is_Some_2 (rolling_mean (short_window self) closes)
                (length closes - 1)%nat) as [ss Hss]; [rewrite rolling_mean_length; lia|].
    destruct (lookup_lt_is_Some_2 (rolling_mean (long_window self) closes)
                (length closes - 1)%nat) as [sl Hsl]; [rewrite rolling_mean_length; lia|].
    rewrite (calculate_body_two_rows_log self df closes price ss sl Hc
               ltac:(lia) Hprice Hss Hsl).
    rewrite (calculate_body_two_rows_log self df' closes price ss sl Hc'
               ltac:(lia) Hprice Hss Hsl).
    auto.
Qed.

(** Running [calculate] again on the frame it has left gives the same log
    lines and the same result, and leaves the frame as the first run left
    it: the two columns it writes are computed from [close] alone. *)
Theorem calculate_idempotent `{RollingMean} (self : TradingSignals) (data : option DataFrame) :
  calculate self (state_of (calculate self data)) = calculate self data.
Proof.
  destruct data as [df|]; [|reflexivity].
  destruct (df_len df <? long_window self)%nat eqn:Hlen.
  - assert (Hfirst : calculate self (Some df)
                     = ([Log WARNING MsgInsufficientData], Some df, Ret (false, false))).
    { unfold calculate. rewrite Hlen. reflexivity. }
    rewrite Hfirst at 1. reflexivity.
  - destruct (df_columns df !! "close") as [closes|] eqn:Hclose.
    + pose proof (close_after_long self df closes Hclose) as Hclose2.
      destruct (calculate_body_by_closes self df (with_averages self closes df) closes
                  Hclose Hclose2) as (Ht & Hr & Hs & Hs').
      rewrite with_averages_twice in Hs'.
      assert (Hfirst : calculate self (Some df)
                       = (trace_of (calculate_body self df),
                          Some (with_averages self closes df),
                          result_of (calculate_body self df))).
      { unfold calculate. rewrite Hlen.
        destruct (calculate_body self df) as [[t df1] r].
        unfold state_of in Hs. simpl in Hs. subst df1. reflexivity. }
      rewrite Hfirst. unfold state_of at 1. cbn [fst snd].
      unfold calculate.
      change (df_len (with_averages self closes df)) with (df_len df). rewrite Hlen.
      destruct (calculate_body self (with_averages self closes df)) as [[t' df2] r'].
      unfold trace_of, result_of, state_of in *. simpl in *. subst. reflexivity.
    + assert (Hfirst : calculate self (Some df) = ([], Some df, Raise KeyError)).
      { unfold calculate. rewrite Hlen.
        rewrite calculate_body_no_close_column by exact Hclose. reflexivity. }
      rewrite Hfirst at 1. reflexivity.
Qed.

(** ** Placing an order: what each failure leaves behind *)

Section PlaceOrder.
Context {W : Type} `{Broker W}.
Variables (self : OrderExecution) (symbol : string) (qty : Z) (sd : side)
          (order_type : string).

Lemma place_order_trade_error (w w' : W) (e : exn) :
  get_latest_trade symbol w = (Raise e, w') ->
  place_order self symbol qty sd order_type w
  = ([GetLatestTrade symbol; order_error_line e], w', Ret None).
Proof.
  intros Htrade. unfold place_order, try_except, bind, call. rewrite Htrade.
  destruct e; reflexivity.
Qed.

Lemma place_order_fee_error (w w' : W) (price : float) (e : exn) :
  get_latest_trade symbol w = (Ret price, w') ->
  estimated_fee self qty price = Raise e ->
  place_order self symbol qty sd order_type w
  = ([GetLatestTrade symbol; order_error_line e], w', Ret None).
Proof.
  intros Htrade Hfee. unfold place_order, try_except, bind, call, lift.
  rewrite Htrade, Hfee. destruct e; reflexivity.
Qed.

Lemma place_order_submit_error (w w' w'' : W) (price fee : float) (e : exn) :
  get_latest_trade symbol w = (Ret price, w') ->
  estimated_fee self qty price = Ret fee ->
  submit_order (mkOrderRequest symbol qty sd order_type "gtc") w' = (Raise e, w'') ->
  place_order self symbol qty sd order_type w
  = ([GetLatestTrade symbol;
      Log INFO (MsgEstimatedFee qty symbol fee);
      SubmitOrder (mkOrderRequest symbol qty sd order_type "gtc");
      order_error_line e], w'', Ret None).
Proof.
  intros Htrade Hfee Hsubmit. unfold place_order, try_except, bind, call, lift, emit.
  rewrite Htrade, Hfee. cbv zeta. rewrite Hsubmit. destruct e; reflexivity.
Qed.

Lemma place_order_success (w w' w'' : W) (price fee : float) (o : order) :
  get_latest_trade symbol w = (Ret price, w') ->
  estimated_fee self qty price = Ret fee ->
  submit_order (mkOrderRequest symbol qty sd order_type "gtc") w' = (Ret o, w'') ->
  place_order self symbol qty sd order_type w
  = ([GetLatestTrade symbol;
      Log INFO (MsgEstimatedFee qty symbol fee);
      SubmitOrder (mkOrderRequest symbol qty sd order_type "gtc");
      Log INFO (MsgOrderPlaced sd qty symbol price)], w'', Ret (Some o)).
Proof.
  intros Htrade Hfee Hsubmit. unfold place_order, try_except, bind, call, lift, emit.
  rewrite Htrade, Hfee. cbv zeta. rewrite Hsubmit. reflexivity.
Qed.

(** Every run of [place_order] is one of the four above. *)
Lemma place_order_cases (w : W) :
  (exists v, result_of (place_order self symbol qty sd order_type w) = Ret v)
  /\ attempts (trace_of (place_order self symbol qty sd order_type w)) = 0%nat
  /\ bars_requested (trace_of (place_order self symbol qty sd order_type w)) = []
  /\ ((submitted (trace_of (place_order self symbol qty sd order_type w)) = []
       /\ result_of (place_order self symbol qty sd order_type w) = Ret None)
      \/ submitted (trace_of (place_order self symbol qty sd order_type w))
         = [mkOrderRequest symbol qty sd order_type "gtc"]).
Proof.
  destruct (get_latest_trade symbol w) as [[price|e] w'] eqn:Htrade.
  - destruct (estimated_fee self qty price) as [fee|e] eqn:Hfee.
    + destruct (submit_order (mkOrderRequest symbol qty sd order_type "gtc") w')
        as [[o|e] w''] eqn:Hsubmit.
      * rewrite (place_order_success w w' w'' price fee o Htrade Hfee Hsubmit).
        unfold trace_of, result_of; simpl;
          (split; [eauto|]; split; [reflexivity|]; split; [reflexivity|];
           first [left; split; reflexivity | right; reflexivity]).
      * rewrite (place_order_submit_error w w' w'' price fee e Htrade Hfee Hsubmit).
        unfold trace_of, result_of; simpl;
          (split; [eauto|]; split; [reflexivity|]; split; [reflexivity|];
           first [left; split; reflexivity | right; reflexivity]).
    + rewrite (place_order_fee_error w w' price e Htrade Hfee).
      unfold trace_of, result_of; simpl;
          (split; [eauto|]; split; [reflexivity|]; split; [reflexivity|];
           first [left; split; reflexivity | right; reflexivity]).
  - rewrite (place_order_trade_error w w' e Htrade).
    unfold trace_of, result_of; simpl;
          (split; [eauto|]; split; [reflexivity|]; split; [reflexivity|];
           first [left; split; reflexivity | right; reflexivity]).
Qed.

End PlaceOrder.

(** When the latest trade cannot be read, [place_order] logs the error,
    submits nothing and returns [None]; the exception does not leave it. *)
Theorem place_order_without_price {W : Type} `{Broker W}
    (self : OrderExecution) (symbol : string) (qty : Z) (sd : side)
    (order_type : string) (w w' : W) (e : exn) :
  get_latest_trade symbol w = (Raise e, w') ->
  place_order self symbol qty sd order_type w
  = ([GetLatestTrade symbol; order_error_line e], w', Ret None)
  /\ submitted (trace_of (place_order self symbol qty sd order_type w)) = [].
Proof.
  intros Htrade.
  rewrite (place_order_trade_error self symbol qty sd order_type w w' e Htrade).
  split; reflexivity.
Qed.

Lemma place_order_without_price_witness :
  place_order (mkOrderExecution 0.25%float) "BTC/USD" 1 Buy "market" broker_down
  = ([GetLatestTrade "BTC/USD"; order_error_line APIError], mkScript [] [] [] [], Ret None)
  /\ submitted (trace_of (place_order (mkOrderExecution 0.25%float) "BTC/USD" 1 Buy
                            "market" broker_down)) = [].
Proof.
  apply (place_order_without_price (mkOrderExecution 0.25%float) "BTC/USD" 1 Buy
           "market" broker_down (mkScript [] [] [] []) APIError).
  reflexivity.
Defined.

(** A quantity too large for a float stops [place_order] at the fee: the
    [OverflowError] of [qty * current_price] is logged, nothing is
    submitted, [None] is returned. *)
Theorem place_order_fee_overflow {W : Type} `{Broker W}
    (self : OrderExecution) (symbol : string) (qty : Z) (sd : side)
    (order_type : string) (w w' : W) (price : float) :
  get_latest_trade symbol w = (Ret price, w') ->
  PrimFloat.is_infinity (Z2float qty) = true ->
  place_order self symbol qty sd order_type w
  = ([GetLatestTrade symbol; Log ERROR (MsgErrorOrder OverflowError)], w', Ret None).
Proof.
  intros Htrade Hbig.
  apply (place_order_fee_error self symbol qty sd order_type w w' price OverflowError
           Htrade).
  unfold estimated_fee, float_of_int. cbv zeta. rewrite Hbig. reflexivity.
Qed.

Lemma place_order_fee_overflow_witness :
  place_order (mkOrderExecution 0.25%float) "BTC/USD" (2 ^ 1024) Buy "market"
              trade_at_100
  = ([GetLatestTrade "BTC/USD"; Log ERROR (MsgErrorOrder OverflowError)],
     mkScript [] [] [] [Ret 42], Ret None).
Proof.
  apply (place_order_fee_overflow (mkOrderExecution 0.25%float) "BTC/USD" (2 ^ 1024)
           Buy "market" trade_at_100 (mkScript [] [] [] [Ret 42]) 100%float).
  - reflexivity.
  - vm_compute. reflexivity.
Defined.

(** When the broker rejects the submission, the fee line and the request
    are already out; [place_order] logs the error and returns [None]. *)
Theorem place_order_rejected {W : Type} `{Broker W}
    (self : OrderExecution) (symbol : string) (qty : Z) (sd : side)
    (order_type : string) (w w' w'' : W) (price fee : float) (e : exn) :
  get_latest_trade symbol w = (Ret price, w') ->
  estimated_fee self qty price = Ret fee ->
  submit_order (mkOrderRequest symbol qty sd order_type "gtc") w' = (Raise e, w'') ->
  place_order self symbol qty sd order_type w
  = ([GetLatestTrade symbol;
      Log INFO (MsgEstimatedFee qty symbol fee);
      SubmitOrder (mkOrderRequest symbol qty sd order_type "gtc");
      order_error_line e], w'', Ret None).
Proof. apply place_order_submit_error. Qed.

Lemma place_order_rejected_witness :
  place_order (mkOrderExecution 0.25%float) "BTC/USD" 1 Sell "market" order_rejected
  = ([GetLatestTrade "BTC/USD";
      Log INFO (MsgEstimatedFee 1 "BTC/USD" 0.25%float);
      SubmitOrder (mkOrderRequest "BTC/USD" 1 Sell "market" "gtc");
      order_error_line APIError], mkScript [] [] [] [], Ret None).
Proof.
  apply (place_order_rejected (mkOrderExecution 0.25%float) "BTC/USD" 1 Sell "market"
           order_rejected (mkScript [] [] [] [Raise APIError]) (mkScript [] [] [] [])
           100%float 0.25%float APIError).
  - reflexivity.
  - vm_compute. reflexivity.
  - reflexivity.
Defined.

(** [place_order] always returns. It sends at most one order, built from
    its own arguments with time in force [gtc], and it returns an order
    only if it has sent that request; it never asks for bars. *)
Theorem place_order_at_most_one_order {W : Type} `{Broker W}
    (self : OrderExecution) (symbol : string) (qty : Z) (sd : side)
    (order_type : string) (w : W) :
  let placed := place_order self symbol qty sd order_type w in
  (exists v, result_of placed = Ret v)
  /\ (submitted (trace_of placed) = []
      \/ submitted (trace_of placed) = [mkOrderRequest symbol qty sd order_type "gtc"])
  /\ (forall o, result_of placed = Ret (Some o) ->
        submitted (trace_of placed) = [mkOrderRequest symbol qty sd order_type "gtc"])
  /\ attempts (trace_of placed) = 0%nat.
Proof.
  intros placed. unfold placed.
  destruct (place_order_cases self symbol qty sd order_type w)
    as (Hret & Hatt & _ & Hsub).
  split; [exact Hret|]. split; [tauto|]. split; [|exact Hatt].
  intros o Ho. destruct Hsub as [[_ Hnone]|Hone]; [|exact Hone].
  rewrite Hnone in Ho. discriminate.
Qed.

Lemma place_order_at_most_one_order_witness :
  submitted (trace_of (place_order (mkOrderExecution 0.25%float) "BTC/USD" 1 Buy
                         "market" trade_at_100))
  = [mkOrderRequest "BTC/USD" 1 Buy "market" "gtc"].
Proof.
  apply (proj1 (proj2 (proj2 (place_order_at_most_one_order
                  (mkOrderExecution 0.25%float) "BTC/USD" 1 Buy "market" trade_at_100)))
               42).
  vm_compute. reflexivity.
Defined.

(** ** The per-symbol task *)

Lemma submitted_app (t1 t2 : list event) :
  submitted (t1 ++ t2) = submitted t1 ++ submitted t2.
Proof.
  induction t1 as [|ev t1 IH]; simpl; [reflexivity|].
  destruct ev; simpl; rewrite IH; reflexivity.
Qed.

Lemma bars_requested_app (t1 t2 : list event) :
  bars_requested (t1 ++ t2) = bars_requested t1 ++ bars_requested t2.
Proof.
  induction t1 as [|ev t1 IH]; simpl; [reflexivity|].
  destruct ev; simpl; rewrite IH; reflexivity.
Qed.

(** The fetch submits no order, and all its requests are for its symbol. *)
Lemma fetch_loop_requests {W : Type} `{Broker W}
    (symbol : string) (limit retries : Z) (delay : nat) (n : nat) :
  forall (attempt : Z) (w : W),
    (Z.to_nat (retries - attempt) <= n)%nat ->
    submitted (trace_of (fetch_loop symbol limit retries delay attempt w)) = []
    /\ bars_requested (trace_of (fetch_loop symbol limit retries delay attempt w))
       = repeat symbol
           (attempts (trace_of (fetch_loop symbol limit retries delay attempt w))).
Proof.
  induction n as [|n IH]; intros attempt w Hn; rewrite fetch_loop_eq.
  - replace (attempt <? retries) with false by (symmetry; apply Z.ltb_ge; lia).
    split; reflexivity.
  - destruct (attempt <? retries) eqn:Hlt; [|split; reflexivity].
    apply Z.ltb_lt in Hlt.
    destruct (get_crypto_bars symbol (limit * 2) w) as [o w'] eqn:Hget.
    destruct (outcome_is_api_error o) as [->|Hne].
    + destruct (Z_lt_dec (attempt + 1) retries) as [Hroom|Hlast].
      * rewrite (fetch_attempt_retry symbol limit retries delay attempt w w' Hget Hroom).
        destruct (IH (attempt + 1) w') as [Hs Hb]; [lia|].
        destruct (fetch_loop symbol limit retries delay (attempt + 1) w') as [[t' w''] r].
        unfold trace_of in *. simpl in *. rewrite Hs, Hb. split; reflexivity.
      * rewrite (fetch_attempt_give_up symbol limit retries delay attempt w w' Hget)
          by lia.
        split; reflexivity.
    + rewrite (fetch_attempt_final symbol limit retries delay attempt w w' o Hget Hne).
      unfold trace_of. simpl.
      destruct o as [bars|e]; simpl; [destruct (df_empty bars)|]; split; reflexivity.
Qed.

(** [calculate] only logs. *)
Lemma calculate_only_logs `{RollingMean} (self : TradingSignals) (data : option DataFrame) :
  submitted (trace_of (calculate self data)) = []
  /\ bars_requested (trace_of (calculate self data)) = []
  /\ attempts (trace_of (calculate self data)) = 0%nat.
Proof.
  destruct data as [df|]; [|repeat split; reflexivity].
  unfold calculate.
  destruct (df_len df <? long_window self)%nat; [repeat split; reflexivity|].
  destruct (df_columns df !! "close") as [closes|] eqn:Hclose.
  - destruct (Nat.le_gt_cases 2 (length closes)) as [Hn|Hn].
    + destruct (calculate_body_two_rows self df closes Hclose Hn)
        as (price & s & l & Hrun).
      cbv zeta in Hrun. rewrite Hrun. unfold trace_of, signal_log. simpl.
      destruct (_ || _); repeat split; reflexivity.
    + destruct (length closes) as [|[|n]] eqn:Hlen; [| |lia].
      * rewrite (calculate_body_no_rows self df closes Hclose) by lia.
        repeat split; reflexivity.
      * rewrite (calculate_body_one_row self df closes Hclose) by lia.
        repeat split; reflexivity.
  - rewrite calculate_body_no_close_column by exact Hclose. repeat split; reflexivity.
Qed.

Section ProcessSymbol.
Context {W : Type} `{Broker W} `{RollingMean}.
Variables (self : AlpacaTradingBot) (symbol : string).

Lemma process_symbol_run (w : W) :
  exists data,
    result_of (get_historical_data symbol 100 3 5 w) = Ret data
    /\ process_symbol self symbol w
       = (trace_of (get_historical_data symbol 100 3 5 w)
          ++ (after_fetch self symbol data (state_of (get_historical_data symbol 100 3 5 w))).1,
          (after_fetch self symbol data (state_of (get_historical_data symbol 100 3 5 w))).2,
          Ret tt).
Proof.
  destruct (fetch_loop_bounded symbol 100 3 5 3 0 w) as [_ [data Hdata]]; [lia|].
  fold (get_historical_data symbol 100 3 5 w) in Hdata.
  exists data. split; [exact Hdata|].
  unfold process_symbol, try_except. unfold bind at 1.
  destruct (get_historical_data symbol 100 3 5 w) as [[t w1] r].
  unfold result_of in Hdata. simpl in Hdata. subst r.
  unfold trace_of at 1, state_of at 1 2. cbn [fst snd].
  destruct data as [df|].
  - unfold after_fetch. unfold bind at 1, calculate_signals.
    destruct (calculate (signals self) (Some df)) as [[tc d] [[b s]|e]];
      unfold result_of, trace_of; cbn [fst snd].
    + destruct b; [|destruct s].
      * destruct (place_order_cases (order_execution self) symbol 1 Buy "market" w1)
          as [[v Hv] _].
        unfold bind, emit, ret.
        destruct (place_order (order_execution self) symbol 1 Buy "market" w1)
          as [[tp wp] rp].
        unfold result_of in Hv. simpl in Hv. subst rp. simpl.
        rewrite <- ?app_assoc, ?app_nil_r. reflexivity.
      * destruct (place_order_cases (order_execution self) symbol 1 Sell "market" w1)
          as [[v Hv] _].
        unfold bind, emit, ret.
        destruct (place_order (order_execution self) symbol 1 Sell "market" w1)
          as [[tp wp] rp].
        unfold result_of in Hv. simpl in Hv. subst rp. simpl.
        rewrite <- ?app_assoc, ?app_nil_r. reflexivity.
      * simpl. rewrite <- ?app_assoc. reflexivity.
    + simpl. rewrite <- ?app_assoc. reflexivity.
  - simpl. rewrite <- ?app_assoc, ?app_nil_r. reflexivity.
Qed.

End ProcessSymbol.

Lemma after_fetch_requests {W : Type} `{Broker W} `{RollingMean}
    (self : AlpacaTradingBot) (symbol : string) (data : option DataFrame) (w : W) :
  bars_requested (after_fetch self symbol data w).1 = []
  /\ attempts (after_fetch self symbol data w).1 = 0%nat
  /\ (submitted (after_fetch self symbol data w).1 = []
      \/ submitted (after_fetch self symbol data w).1
         = [mkOrderRequest symbol 1 Buy "market" "gtc"]
      \/ submitted (after_fetch self symbol data w).1
         = [mkOrderRequest symbol 1 Sell "market" "gtc"]).
Proof.
  destruct data as [df|]; [|simpl; auto].
  unfold after_fetch. cbv zeta.
  destruct (calculate_only_logs (signals self) (Some df)) as (Hs & Hb & Ha).
  destruct (result_of (calculate (signals self) (Some df))) as [[[|] [|]]|e]; cbn [fst].
  - destruct (place_order_cases (order_execution self) symbol 1 Buy "market" w)
      as (_ & Hpa & Hpb & Hps).
    rewrite bars_requested_app, attempts_app, submitted_app, Hs, Hb, Ha. simpl.
    rewrite Hpa, Hpb. split; [reflexivity|]. split; [reflexivity|]. tauto.
  - destruct (place_order_cases (order_execution self) symbol 1 Buy "market" w)
      as (_ & Hpa & Hpb & Hps).
    rewrite bars_requested_app, attempts_app, submitted_app, Hs, Hb, Ha. simpl.
    rewrite Hpa, Hpb. split; [reflexivity|]. split; [reflexivity|]. tauto.
  - destruct (place_order_cases (order_execution self) symbol 1 Sell "market" w)
      as (_ & Hpa & Hpb & Hps).
    rewrite bars_requested_app, attempts_app, submitted_app, Hs, Hb, Ha. simpl.
    rewrite Hpa, Hpb. split; [reflexivity|]. split; [reflexivity|]. tauto.
  - rewrite bars_requested_app, attempts_app, submitted_app, Hs, Hb, Ha. simpl. auto.
  - rewrite bars_requested_app, attempts_app, submitted_app, Hs, Hb, Ha. simpl. auto.
Qed.

(** When the fetch returns [None], the task logs the failure, starts its
    sleep of 300 seconds and ends: no signal is computed, no trade is read,
    no order is submitted. *)
Theorem process_symbol_data_unavailable {W : Type} `{Broker W} `{RollingMean}
    (self : AlpacaTradingBot) (symbol : string) (w : W) :
  result_of (get_historical_data symbol 100 3 5 w) = Ret None ->
  process_symbol self symbol w
  = (trace_of (get_historical_data symbol 100 3 5 w)
     ++ [Log ERROR (MsgFetchFailed symbol); AsyncSleep 300],
     state_of (get_historical_data symbol 100 3 5 w), Ret tt)
  /\ submitted (trace_of (process_symbol self symbol w)) = [].
Proof.
  intros Hnone.
  destruct (process_symbol_run self symbol w) as (data & Hdata & Hrun).
  rewrite Hnone in Hdata. injection Hdata as <-.
  split; [exact Hrun|].
  rewrite Hrun. unfold trace_of at 1. cbn [fst]. rewrite submitted_app.
  destruct (fetch_loop_requests symbol 100 3 5 3 0 w) as [Hs _]; [lia|].
  fold (get_historical_data symbol 100 3 5 w) in Hs. rewrite Hs. reflexivity.
Qed.

Lemma process_symbol_data_unavailable_witness :
  process_symbol one_symbol_bot "BTC/USD" transport_error_first
  = (trace_of (get_historical_data "BTC/USD" 100 3 5 transport_error_first)
     ++ [Log ERROR (MsgFetchFailed "BTC/USD"); AsyncSleep 300],
     state_of (get_historical_data "BTC/USD" 100 3 5 transport_error_first), Ret tt)
  /\ submitted (trace_of (process_symbol one_symbol_bot "BTC/USD" transport_error_first))
     = [].
Proof.
  apply (process_symbol_data_unavailable one_symbol_bot "BTC/USD" transport_error_first).
  vm_compute. reflexivity.
Defined.

(** With data, the task follows the result of [calculate]: on a buy flag
    it logs the signal and calls [place_order] for one unit at market, side
    buy; on a sell flag alone, the same with side sell; without a flag it
    logs that there is no signal and touches nothing; an exception of
    [calculate] is logged and ends the task without an order. *)
Theorem process_symbol_dispatch {W : Type} `{Broker W} `{RollingMean}
    (self : AlpacaTradingBot) (symbol : string) (w : W) (df : DataFrame) :
  result_of (get_historical_data symbol 100 3 5 w) = Ret (Some df) ->
  let fetched := get_historical_data symbol 100 3 5 w in
  let calc := calculate (signals self) (Some df) in
  let place sd := place_order (order_execution self) symbol 1 sd "market"
                    (state_of fetched) in
  (forall sell_signal,
     result_of calc = Ret (true, sell_signal) ->
     process_symbol self symbol w
     = (trace_of fetched ++ trace_of calc
        ++ Log INFO (MsgBuySignal symbol) :: trace_of (place Buy),
        state_of (place Buy), Ret tt))
  /\ (result_of calc = Ret (false, true) ->
      process_symbol self symbol w
      = (trace_of fetched ++ trace_of calc
         ++ Log INFO (MsgSellSignal symbol) :: trace_of (place Sell),
         state_of (place Sell), Ret tt))
  /\ (result_of calc = Ret (false, false) ->
      process_symbol self symbol w
      = (trace_of fetched ++ trace_of calc ++ [Log INFO (MsgNoSignals symbol)],
         state_of fetched, Ret tt))
  /\ (forall e,
        result_of calc = Raise e ->
        process_symbol self symbol w
        = (trace_of fetched ++ trace_of calc
           ++ [Log ERROR (MsgErrorProcessing symbol e)],
           state_of fetched, Ret tt)).
Proof.
  intros Hsome fetched calc place.
  destruct (process_symbol_run self symbol w) as (data & Hdata & Hrun).
  rewrite Hsome in Hdata. injection Hdata as <-.
  fold fetched in Hrun. unfold after_fetch in Hrun. cbv zeta in Hrun. fold calc in Hrun.
  repeat split.
  - intros s Hr. rewrite Hr in Hrun. exact Hrun.
  - intros Hr. rewrite Hr in Hrun. exact Hrun.
  - intros Hr. rewrite Hr in Hrun. exact Hrun.
  - intros e Hr. rewrite Hr in Hrun. exact Hrun.
Qed.

Lemma process_symbol_dispatch_witness :
  submitted (trace_of (process_symbol one_symbol_bot "BTC/USD" upward_cross))
  = [mkOrderRequest "BTC/USD" 1 Buy "market" "gtc"].
Proof.
  assert (Hfetched : result_of (get_historical_data "BTC/USD" 100 3 5 upward_cross)
                     = Ret (Some (df_sort_index (df_tail 100 (bars_of [1; 1; 5]%float)))))
    by (vm_compute; reflexivity).
  pose proof (proj1 (process_symbol_dispatch one_symbol_bot "BTC/USD" upward_cross
                       _ Hfetched) false) as Hbuy.
  rewrite Hbuy by (vm_compute; reflexivity).
  vm_compute. reflexivity.
Defined.

(** In every run, the task asks for the bars of its own symbol only, at
    least once and at most three times, and submits at most one order: one
    unit of its symbol at market, good till cancelled. *)
Lemma process_symbol_requests {W : Type} `{Broker W} `{RollingMean}
    (self : AlpacaTradingBot) (symbol : string) (w : W) :
  let t := trace_of (process_symbol self symbol w) in
  (exists k, (1 <= k <= 3)%nat /\ bars_requested t = repeat symbol k)
  /\ (submitted t = []
      \/ submitted t = [mkOrderRequest symbol 1 Buy "market" "gtc"]
      \/ submitted t = [mkOrderRequest symbol 1 Sell "market" "gtc"]).
Proof.
  intros t. unfold t.
  destruct (process_symbol_run self symbol w) as (data & Hdata & Hrun).
  destruct (fetch_loop_requests symbol 100 3 5 3 0 w) as [Hs Hb]; [lia|].
  destruct (fetch_loop_bounded symbol 100 3 5 3 0 w) as [Hle _]; [lia|].
  destruct (get_historical_data_first_request symbol 100 3 5 w) as [rest Hfirst]; [lia|].
  fold (get_historical_data symbol 100 3 5 w) in Hs, Hb, Hle.
  destruct (after_fetch_requests self symbol data
              (state_of (get_historical_data symbol 100 3 5 w))) as (Hab & _ & Has).
  set (tf := trace_of (get_historical_data symbol 100 3 5 w)) in *.
  set (ta := (after_fetch self symbol data
                (state_of (get_historical_data symbol 100 3 5 w))).1) in *.
  rewrite Hrun. change (trace_of (tf ++ ta, _, _)) with (tf ++ ta).
  rewrite bars_requested_app, submitted_app, Hs, Hb, Hab, app_nil_r. simpl.
  split; [|exact Has].
  exists (attempts tf).
  split; [|reflexivity].
  split; [rewrite Hfirst; simpl; lia|].
  simpl in Hle. lia.
Qed.

(** ** The scheduler loop: open market, sleep length, interruption, one cycle *)

(** In a pass that finds the market open there is no closed-market sleep:
    after the clock request come the tasks of the symbols, then the sleep
    of [check_interval], and the loop goes on. *)
Theorem run_iteration_open_market {W : Type} `{Broker W} `{RollingMean}
    (self : AlpacaTradingBot) (check_interval : Z) (w w' : W) (clock : Clock) :
  get_clock w = (Replied (Ret clock), w') ->
  is_open clock = true ->
  trace_of (run_iteration self check_interval w)
  = GetClock :: trace_of (gather (map (process_symbol self) (symbols self)) w')
    ++ [AsyncSleep check_interval]
  /\ status_of (run_iteration self check_interval w) = Continue.
Proof.
  intros Hc Hopen.
  rewrite (run_iteration_clock self check_interval w w' clock Hc).
  destruct (run_cycle_trace self check_interval clock w') as [Ht _].
  unfold trace_of at 1, status_of. simpl. rewrite Ht, Hopen. split; reflexivity.
Qed.

Lemma run_iteration_open_market_witness :
  trace_of (run_iteration (mkAlpacaTradingBot [] (mkTradingSignals 20 50)
                             (mkOrderExecution 0.25%float)) 900 open_no_bars)
  = [GetClock; AsyncSleep 900].
Proof.
  refine (proj1 (run_iteration_open_market
                   (mkAlpacaTradingBot [] (mkTradingSignals 20 50)
                      (mkOrderExecution 0.25%float)) 900 open_no_bars
                   (mkScript [] [] [] []) (mkClock true 0 0) _ _)); reflexivity.
Defined.

(** The closed-market sleep is never longer than [check_interval] and never
    a day or more; it is not negative when [check_interval] is not; and
    when the market opens within the next 24 hours it is the smaller of
    [check_interval] and the time to the opening. *)
Theorem closed_market_sleep_length {W : Type} `{Broker W} `{RollingMean}
    (self : AlpacaTradingBot) (check_interval : Z) (w w' : W) (clock : Clock) :
  get_clock w = (Replied (Ret clock), w') ->
  is_open clock = false ->
  exists seconds rest,
    trace_of (run_iteration self check_interval w)
    = GetClock :: Log INFO (MsgMarketClosed (next_open clock))
      :: AsyncSleep seconds :: rest
    /\ seconds <= check_interval
    /\ seconds < 86400
    /\ (0 <= check_interval -> 0 <= seconds)
    /\ (0 <= next_open clock - timestamp clock < 86400 ->
        seconds = Z.min check_interval (next_open clock - timestamp clock))
    /\ (86400 <= next_open clock - timestamp clock < 2 * 86400 ->
        seconds = Z.min check_interval (next_open clock - timestamp clock - 86400)).
Proof.
  intros Hc Hclosed.
  eexists _, _. split.
  - rewrite (run_iteration_closed_market self check_interval w w' clock Hc Hclosed).
    reflexivity.
  - unfold timedelta_seconds.
    pose proof (Z.mod_pos_bound (next_open clock - timestamp clock) 86400 ltac:(lia)).
    repeat split; try lia.
    + intros Hin. rewrite Z.mod_small by lia. reflexivity.
    + intros Hin.
      replace (next_open clock - timestamp clock)
        with ((next_open clock - timestamp clock - 86400) + 1 * 86400) at 1 by lia.
      rewrite Z.mod_add by lia. rewrite Z.mod_small by lia. reflexivity.
Qed.

Lemma closed_market_sleep_length_witness :
  exists seconds rest,
    trace_of (run_iteration one_symbol_bot 900 closed_for_2000s)
    = GetClock :: Log INFO (MsgMarketClosed 2000) :: AsyncSleep seconds :: rest
    /\ seconds <= 900
    /\ seconds < 86400
    /\ (0 <= 900 -> 0 <= seconds)
    /\ (0 <= 2000 - 0 < 86400 -> seconds = Z.min 900 (2000 - 0))
    /\ (86400 <= 2000 - 0 < 2 * 86400 -> seconds = Z.min 900 (2000 - 0 - 86400)).
Proof.
  refine (closed_market_sleep_length one_symbol_bot 900 closed_for_2000s _
            (mkClock false 2000 0) _ _).
  - reflexivity.
  - reflexivity.
Defined.

(** On [KeyboardInterrupt] at the clock request the loop logs that it
    stops and is left: however many passes are observed, nothing follows. *)
Theorem run_interrupted {W : Type} `{Broker W} `{RollingMean}
    (self : AlpacaTradingBot) (check_interval : Z) (w w' : W) (n : nat) :
  get_clock w = (Interrupted, w') ->
  run self check_interval (S n) w
  = ([Log INFO (MsgStarting (symbols self)); GetClock; Log INFO MsgStopping], w', Break).
Proof.
  intros Hc. unfold run. cbn [run_loop].
  rewrite (run_iteration_interrupted self check_interval w w' Hc). reflexivity.
Qed.

Lemma run_interrupted_witness :
  run one_symbol_bot 900 5 interrupted_at_once
  = ([Log INFO (MsgStarting ["BTC/USD"]); GetClock; Log INFO MsgStopping],
     mkScript [Replied (Ret (mkClock true 0 0))] [] [] [], Break).
Proof.
  apply (run_interrupted one_symbol_bot 900 interrupted_at_once
           (mkScript [Replied (Ret (mkClock true 0 0))] [] [] []) 4).
  reflexivity.
Defined.

Lemma attempts_bars_requested (t : list event) :
  attempts t = length (bars_requested t).
Proof.
  induction t as [|ev t IH]; simpl; [reflexivity|].
  destruct ev; simpl; rewrite ?IH; reflexivity.
Qed.

(** The requests of the tasks of a list of symbols. *)
Lemma gather_requests {W : Type} `{Broker W} `{RollingMean} (self : AlpacaTradingBot)
    (l : list string) :
  forall w : W,
    exists (ks : list nat) (sides : list (option side)),
      length ks = length l
      /\ length sides = length l
      /\ Forall (fun k => (1 <= k <= 3)%nat) ks
      /\ bars_requested (trace_of (gather (map (process_symbol self) l) w))
         = mjoin (zip_with (fun s k => repeat s k) l ks)
      /\ submitted (trace_of (gather (map (process_symbol self) l) w))
         = mjoin (zip_with task_orders l sides).
Proof.
  induction l as [|symbol l IH]; intros w.
  - exists [], []. simpl. auto.
  - cbn [map gather]. unfold bind.
    pose proof (process_symbol_returns self symbol w) as Hr1.
    destruct (process_symbol_requests self symbol w) as [(k & Hk & Hb) Hs].
    destruct (process_symbol self symbol w) as [[t1 w1] r1].
    unfold result_of in Hr1. simpl in Hr1. subst r1.
    destruct (IH w1) as (ks & sides & Hlk & Hls & Hks & Hbs & Hss).
    destruct (gather (map (process_symbol self) l) w1) as [[t2 w2] r2].
    unfold trace_of in *. cbn [fst] in *.
    assert (Hside : exists sd, submitted t1 = task_orders symbol sd).
    { destruct Hs as [->|[->| ->]];
        [exists None|exists (Some Buy)|exists (Some Sell)]; reflexivity. }
    destruct Hside as [sd Hsd].
    exists (k :: ks), (sd :: sides).
    rewrite bars_requested_app, submitted_app, Hb, Hbs, Hsd, Hss.
    split; [simpl; lia|]. split; [simpl; lia|].
    split; [constructor; assumption|]. split; reflexivity.
Qed.

(** One cycle, whether the market is open or closed: the bars are asked
    for symbol after symbol in the order of [symbols], one to three times
    each; and the orders submitted are, symbol after symbol in the same
    order, none or one order for that symbol: one unit at market, good till
    cancelled, side buy or sell. *)
Theorem run_iteration_cycle_requests {W : Type} `{Broker W} `{RollingMean}
    (self : AlpacaTradingBot) (check_interval : Z) (w w' : W) (clock : Clock) :
  get_clock w = (Replied (Ret clock), w') ->
  let t := trace_of (run_iteration self check_interval w) in
  exists (ks : list nat) (sides : list (option side)),
    length ks = length (symbols self)
    /\ length sides = length (symbols self)
    /\ Forall (fun k => (1 <= k <= 3)%nat) ks
    /\ bars_requested t = mjoin (zip_with (fun s k => repeat s k) (symbols self) ks)
    /\ submitted t = mjoin (zip_with task_orders (symbols self) sides).
Proof.
  intros Hc t. unfold t.
  rewrite (run_iteration_clock self check_interval w w' clock Hc).
  destruct (run_cycle_trace self check_interval clock w') as [Ht _].
  unfold trace_of at 1 3. cbn [fst]. rewrite Ht.
  assert (Hb : forall g,
             bars_requested
               (GetClock :: (if is_open clock then []
                  else [Log INFO (MsgMarketClosed (next_open clock));
                        AsyncSleep (Z.min check_interval
                          (timedelta_seconds (next_open clock - timestamp clock)))])
                ++ g ++ [AsyncSleep check_interval]) = bars_requested g).
  { intros g. destruct (is_open clock); simpl;
      rewrite bars_requested_app; simpl; apply app_nil_r. }
  assert (Hs : forall g,
             submitted
               (GetClock :: (if is_open clock then []
                  else [Log INFO (MsgMarketClosed (next_open clock));
                        AsyncSleep (Z.min check_interval
                          (timedelta_seconds (next_open clock - timestamp clock)))])
                ++ g ++ [AsyncSleep check_interval]) = submitted g).
  { intros g. destruct (is_open clock); simpl;
      rewrite submitted_app; simpl; apply app_nil_r. }
  rewrite Hb, Hs. apply gather_requests.
Qed.

Lemma run_iteration_cycle_requests_witness :
  exists (ks : list nat) (sides : list (option side)),
    length ks = length (symbols two_symbol_bot)
    /\ length sides = length (symbols two_symbol_bot)
    /\ Forall (fun k => (1 <= k <= 3)%nat) ks
    /\ bars_requested (trace_of (run_iteration two_symbol_bot 900 two_symbol_cycle))
       = mjoin (zip_with (fun s k => repeat s k) (symbols two_symbol_bot) ks)
    /\ submitted (trace_of (run_iteration two_symbol_bot 900 two_symbol_cycle))
       = mjoin (zip_with task_orders (symbols two_symbol_bot) sides).
Proof.
  refine (run_iteration_cycle_requests two_symbol_bot 900 two_symbol_cycle
            (mkScript [] [Ret (bars_of [1; 1; 5]%float); Raise IOError]
               [Ret 100%float] [Ret 42])
            (mkClock true 0 0) _).
  reflexivity.
Defined.

(** ** Start-up *)

(** With a credential missing (unset or empty) the script logs both
    credentials as they are and ends with the [ValueError] of line 27:
    nothing is asked of the broker. *)
Theorem main_missing_credentials {W : Type} `{Broker W} `{RollingMean}
    (get_account : W -> outcome Account * W) (parse_float : string -> outcome float)
    (api_key api_secret : option string) (n : nat) (w : W) :
  is_set api_key = false \/ is_set api_secret = false ->
  main get_account parse_float api_key api_secret n w
  = ([StartupLog INFO (MsgApiKey api_key); StartupLog INFO (MsgApiSecret api_secret)],
     w, UncaughtValueError).
Proof.
  intros Hmissing. unfold main.
  replace (negb (is_set api_key) || negb (is_set api_secret)) with true; [reflexivity|].
  destruct Hmissing as [-> | ->]; [reflexivity|]. symmetry. apply orb_true_r.
Qed.

Lemma main_missing_credentials_witness :
  main (fun s : Script => (Raise APIError, s)) (fun _ => Ret 0%float)
       (Some "key") (Some "") 3 broker_down
  = ([StartupLog INFO (MsgApiKey (Some "key")); StartupLog INFO (MsgApiSecret (Some ""))],
     broker_down, UncaughtValueError).
Proof.
  apply main_missing_credentials. right. reflexivity.
Defined.

(** The connection check gives the account only if the request and the
    reading of the buying power both succeed; otherwise it logs one error
    line and raises the exception it caught. *)
Lemma validate_connection_cases {W : Type}
    (get_account : W -> outcome Account * W) (parse_float : string -> outcome float)
    (w : W) :
  (exists account p,
     get_account w = (Ret account, (get_account w).2)
     /\ parse_float (buying_power account) = Ret p
     /\ validate_connection get_account parse_float w
        = ([GetAccount;
            StartupLog INFO (MsgConnected (acc_status account));
            StartupLog INFO (MsgBuyingPower p)], (get_account w).2, Ret account))
  \/ (exists e t,
        validate_connection get_account parse_float w
        = (GetAccount :: t ++ [connection_error_line e], (get_account w).2, Raise e)
        /\ (fst (get_account w) = Raise e
            \/ exists account, fst (get_account w) = Ret account
                               /\ parse_float (buying_power account) = Raise e)
        /\ Forall (fun ev => exists m, ev = StartupLog INFO m) t).
Proof.
  unfold validate_connection.
  destruct (get_account w) as [[account|e] w'] eqn:Hget; simpl.
  - destruct (parse_float (buying_power account)) as [p|e] eqn:Hparse.
    + left. exists account, p. auto.
    + right. exists e, [StartupLog INFO (MsgConnected (acc_status account))].
      split; [reflexivity|]. split; [right; eauto|].
      repeat constructor. eauto.
  - right. exists e, []. split; [reflexivity|]. split; [left; reflexivity|constructor].
Qed.

(** When the connection check fails, the failure is fatal: the constructor
    lets the exception through, the script logs it as a fatal error and
    ends without entering the loop, so that no clock, bar, trade or order
    request is ever sent. *)
Theorem main_connection_failure {W : Type} `{Broker W} `{RollingMean}
    (get_account : W -> outcome Account * W) (parse_float : string -> outcome float)
    (api_key api_secret : option string) (n : nat) (w : W) (e : exn) :
  is_set api_key = true ->
  is_set api_secret = true ->
  (validate_connection get_account parse_float w).2 = Raise e ->
  exists t,
    main get_account parse_float api_key api_secret n w
    = ([StartupLog INFO (MsgApiKey api_key); StartupLog INFO (MsgApiSecret api_secret)]
       ++ GetAccount :: t ++ [connection_error_line e; StartupLog ERROR (MsgFatal e)],
       (get_account w).2, FatalLogged e)
    /\ Forall (fun ev => exists m, ev = StartupLog INFO m) t.
Proof.
  intros Hkey Hsecret Hraise.
  destruct (validate_connection_cases get_account parse_float w)
    as [(account & p & _ & _ & Hv)|(e' & t & Hv & _ & Hlogs)].
  - rewrite Hv in Hraise. discriminate.
  - rewrite Hv in Hraise. simpl in Hraise. injection Hraise as ->.
    exists t. split; [|exact Hlogs].
    unfold main, init_bot. rewrite Hkey, Hsecret, Hv. simpl.
    rewrite <- app_assoc. reflexivity.
Qed.

Lemma main_connection_failure_witness :
  exists t,
    main (fun s : Script => (Raise APIError, s)) (fun _ => Ret 0%float)
         (Some "key") (Some "secret") 3 broker_down
    = ([StartupLog INFO (MsgApiKey (Some "key"));
        StartupLog INFO (MsgApiSecret (Some "secret"))]
       ++ GetAccount :: t
       ++ [connection_error_line APIError; StartupLog ERROR (MsgFatal APIError)],
       broker_down, FatalLogged APIError)
    /\ Forall (fun ev => exists m, ev = StartupLog INFO m) t.
Proof.
  refine (main_connection_failure (fun s : Script => (Raise APIError, s))
            (fun _ => Ret 0%float) (Some "key") (Some "secret") 3 broker_down
            APIError _ _ _); reflexivity.
Defined.
